(** * Response-compression middleware (index.js): a shallow embedding

    The middleware replaces [res.write], [res.end] and [res.on] by proxies,
    waits for the header-commit hook (on-headers) and decides there, once,
    whether the body goes through a zlib stream or straight to the
    transport.  The embedding below follows index.js function by function:
    JavaScript values are a small tagged union, the variables captured by
    the middleware closure ([length], [listeners], [stream]) and the
    response object form an explicit state, calls on the original transport
    and on the zlib stream are recorded in a trace, and a thrown exception
    is an explicit completion.  Packages index.js only requires ([bytes],
    [accepts], [compressible], [vary], [Buffer]) are fields of a record of
    collaborators, so every theorem holds for whatever they compute. *)

From stdpp Require Import gmap strings list fin_maps.
From Stdlib Require Import ZArith Lia Ascii.

Local Open Scope Z_scope.

(** ** JavaScript values *)

(** Numbers: the integer-valued ones and NaN.  Sizes, thresholds and
    Content-Length values are integers; NaN is what [Number] gives for a
    missing or unreadable header. *)
Inductive jsnum :=
| NaN
| Num (z : Z).

Inductive jsval :=
| VUndef
| VNull
| VBool (b : bool)
| VNum (n : jsnum)
| VStr (s : string)
| VBuf (b : list Byte.byte).

Inductive JsError :=
| TypeError
| Error.

(** The outcome of evaluating a call: a value, or an exception. *)
Inductive Completion (A : Type) :=
| Normal (a : A)
| Throw (e : JsError).
Arguments Normal {A} a.
Arguments Throw {A} e.

#[global] Instance Completion_ret : MRet Completion := fun A a => Normal a.

#[global] Instance Completion_bind : MBind Completion := fun A B k c =>
  match c with
  | Normal a => k a
  | Throw e => Throw e
  end.

(** [!v] is [negb (truthy v)]. *)
Definition truthy (v : jsval) : bool :=
  match v with
  | VUndef | VNull => false
  | VBool b => b
  | VNum NaN => false
  | VNum (Num z) => negb (z =? 0)
  | VStr s => negb (String.eqb s "")
  | VBuf _ => true
  end.

(** [a || b] on values. *)
Definition js_or (a b : jsval) : jsval := if truthy a then a else b.

(** [a === b] (NaN is not equal to itself; two Buffer objects are compared
    by identity, which the value model cannot see, so they count as
    different). *)
Definition strict_eq (a b : jsval) : bool :=
  match a, b with
  | VUndef, VUndef | VNull, VNull => true
  | VBool x, VBool y => Bool.eqb x y
  | VNum (Num x), VNum (Num y) => x =? y
  | VStr x, VStr y => String.eqb x y
  | _, _ => false
  end.

(** [v == null]. *)
Definition loose_eq_null (v : jsval) : bool :=
  match v with
  | VUndef | VNull => true
  | _ => false
  end.

(** ** The request *)

(** What index.js reads of the request: its method, and (through [accepts])
    its Accept-Encoding header, kept here as the list of codings with their
    weights in thousandths, in header order; [None] when the header is
    absent. *)
Record Request := {
  req_method : string;
  req_accept_encoding : option (list (string * N));
}.

(** ** Collaborators: the packages index.js requires *)

Record Collaborators := {
  (** ECMAScript ToNumber on a non-empty string *)
  StringToNumber : string -> jsnum;
  (** [Buffer.byteLength(chunk, encoding)] *)
  Buffer_byteLength : jsval -> jsval -> nat;
  (** [new Buffer(chunk, encoding)] *)
  new_Buffer : jsval -> jsval -> Completion (list Byte.byte);
  (** [bytes.parse(value)] *)
  bytes_parse : jsval -> Completion jsval;
  (** [compressible(type)] *)
  compressible : jsval -> jsval;
  (** the value [vary(res, field)] stores in the Vary header, from the
      value found there *)
  vary_append : jsval -> string -> jsval;
  (** [accepts(req).encoding(candidates)]: a candidate, or [false] *)
  accepts_encoding : Request -> list string -> jsval;
}.

(** [Number(v)]. *)
Definition ToNumber (X : Collaborators) (v : jsval) : jsnum :=
  match v with
  | VUndef => NaN
  | VNull => Num 0
  | VBool b => Num (if b then 1 else 0)
  | VNum n => n
  | VStr s => if String.eqb s "" then Num 0 else StringToNumber X s
  | VBuf b => NaN
  end.

(** [a < b] once both sides are numbers: false as soon as one is NaN. *)
Definition num_lt (a b : jsnum) : bool :=
  match a, b with
  | Num x, Num y => x <? y
  | _, _ => false
  end.

(** [a < b] for a left operand that is [undefined] or a number (the two
    comparisons of the threshold test have such a left operand). *)
Definition js_lt (X : Collaborators) (a b : jsval) : bool :=
  num_lt (ToNumber X a) (ToNumber X b).

(** ** The response object and the middleware closure *)

Definition lowercase_ascii (c : Ascii.ascii) : Ascii.ascii :=
  let n := Ascii.nat_of_ascii c in
  if ((65 <=? n) && (n <=? 90))%nat then Ascii.ascii_of_nat (n + 32) else c.

Fixpoint lowercase (s : string) : string :=
  match s with
  | EmptyString => EmptyString
  | String c r => String (lowercase_ascii c) (lowercase r)
  end.

(** The part of [res] a filter can look at: the header store (Node keys it
    by lower-cased name) and [res._header], set once headers are
    committed. *)
Record Response := {
  headers : gmap string jsval;
  header_sent : bool;
}.

Definition getHeader (r : Response) (name : string) : jsval :=
  default VUndef (headers r !! lowercase name).

Definition setHeader (name : string) (v : jsval) (r : Response) : Response :=
  {| headers := <[lowercase name := v]> (headers r); header_sent := header_sent r |}.

Definition removeHeader (name : string) (r : Response) : Response :=
  {| headers := delete (lowercase name) (headers r); header_sent := header_sent r |}.

(** A listener: one of the application's functions (named by a number), or
    one of the three closures the compression path creates. *)
Inductive Handler :=
| AppListener (id : nat)
| RelayData      (* function(chunk){ if (write.call(res, chunk) === false) stream.pause() } *)
| RelayEnd       (* function(){ end.call(res) } *)
| RelayResume.   (* function(){ stream.resume() } *)

Inductive Codec :=
| Gzip
| Deflate.

(** Calls that leave the middleware: on the captured original [write],
    [end] and [on] of the response (T...), and on the zlib stream (S...). *)
Inductive Action :=
| TWrite (chunk encoding : jsval)
| TEnd (chunk encoding : jsval)
| TOn (type : string) (listener : Handler)
| SWrite (buf : list Byte.byte)
| SEnd (buf : option (list Byte.byte))
| SOn (type : string) (listener : Handler)
| SFlush.

(** What [res.write] / [res.end] / [res.flush] currently hold. *)
Inductive Slot :=
| Proxy
| Noop.

Inductive FlushSlot :=
| FlushNoop
| FlushStream.

(** One exchange: [res], the on-headers one-shot flag, the closure
    variables of the middleware, and the trace of outgoing calls.
    [est_length] is the closure variable [length]; [listeners = None] is
    [listeners = null]. *)
Record Exchange := {
  res : Response;
  fired : bool;
  write_slot : Slot;
  end_slot : Slot;
  flush_slot : FlushSlot;
  est_length : jsval;
  listeners : option (list (string * Handler));
  stream : option Codec;
  trace : list Action;
}.

Definition with_res (f : Response -> Response) (st : Exchange) : Exchange :=
  {| res := f (res st); fired := fired st; write_slot := write_slot st;
     end_slot := end_slot st; flush_slot := flush_slot st;
     est_length := est_length st; listeners := listeners st;
     stream := stream st; trace := trace st |}.

Definition with_fired (b : bool) (st : Exchange) : Exchange :=
  {| res := res st; fired := b; write_slot := write_slot st;
     end_slot := end_slot st; flush_slot := flush_slot st;
     est_length := est_length st; listeners := listeners st;
     stream := stream st; trace := trace st |}.

Definition with_slots (w e : Slot) (st : Exchange) : Exchange :=
  {| res := res st; fired := fired st; write_slot := w;
     end_slot := e; flush_slot := flush_slot st;
     est_length := est_length st; listeners := listeners st;
     stream := stream st; trace := trace st |}.

Definition with_flush (f : FlushSlot) (st : Exchange) : Exchange :=
  {| res := res st; fired := fired st; write_slot := write_slot st;
     end_slot := end_slot st; flush_slot := f;
     est_length := est_length st; listeners := listeners st;
     stream := stream st; trace := trace st |}.

Definition with_length (v : jsval) (st : Exchange) : Exchange :=
  {| res := res st; fired := fired st; write_slot := write_slot st;
     end_slot := end_slot st; flush_slot := flush_slot st;
     est_length := v; listeners := listeners st;
     stream := stream st; trace := trace st |}.

Definition with_listeners (l : option (list (string * Handler))) (st : Exchange) : Exchange :=
  {| res := res st; fired := fired st; write_slot := write_slot st;
     end_slot := end_slot st; flush_slot := flush_slot st;
     est_length := est_length st; listeners := l;
     stream := stream st; trace := trace st |}.

Definition with_stream (s : option Codec) (st : Exchange) : Exchange :=
  {| res := res st; fired := fired st; write_slot := write_slot st;
     end_slot := end_slot st; flush_slot := flush_slot st;
     est_length := est_length st; listeners := listeners st;
     stream := s; trace := trace st |}.

(** Record outgoing calls, oldest first. *)
Definition emit (acts : list Action) (st : Exchange) : Exchange :=
  {| res := res st; fired := fired st; write_slot := write_slot st;
     end_slot := end_slot st; flush_slot := flush_slot st;
     est_length := est_length st; listeners := listeners st;
     stream := stream st; trace := trace st ++ acts |}.

(** ** index.js *)

Section Middleware.

Variable X : Collaborators.

(** [shouldCompress(req, res)], the default filter. *)
Definition shouldCompress (req : Request) (r : Response) : bool :=
  let type := getHeader r "Content-Type" in
  if strict_eq type VUndef || negb (truthy (compressible X type))
  then false
  else true.

(** [chunkLength(chunk, encoding)]; a bare [return] gives [undefined]. *)
Definition chunkLength (chunk encoding : jsval) : jsval :=
  if negb (truthy chunk) then VUndef
  else match chunk with
       | VBuf b => VNum (Num (Z.of_nat (length b)))
       | _ => VNum (Num (Z.of_nat (Buffer_byteLength X chunk encoding)))
       end.

(** The options object: [filter] (absent, or a predicate) and [threshold];
    what else it holds is handed to zlib and plays no part here. *)
Record Options := {
  opt_filter : option (Request -> Response -> bool);
  opt_threshold : jsval;
}.

(** What the returned middleware closes over. *)
Record Config := {
  filter : Request -> Response -> bool;
  threshold : jsval;
}.

(** [{}] *)
Definition no_options : Options :=
  {| opt_filter := None; opt_threshold := VUndef |}.

(** [compression(options)], up to the [return function ...]. *)
Definition compression (options : option Options) : Completion Config :=
  let opts := default no_options options in
  let filter := default shouldCompress (opt_filter opts) in
  threshold ← bytes_parse X (opt_threshold opts);
  let threshold := if loose_eq_null threshold then VNum (Num 1024) else threshold in
  mret {| filter := filter; threshold := threshold |}.

(** The state the middleware leaves behind when it calls [next()]: the
    three proxies installed, [flush] a no-op, nothing buffered. *)
Definition install (r : Response) : Exchange :=
  {| res := r; fired := false; write_slot := Proxy; end_slot := Proxy;
     flush_slot := FlushNoop; est_length := VUndef; listeners := Some [];
     stream := None; trace := [] |}.

Variable cfg : Config.
Variable req : Request.

(** [addListeners(stream, on, listeners)]: one [on] call per buffered
    pair, in index order; [listeners.length] throws on [null]. *)
Definition addListeners (on : string -> Handler -> Action)
    (ls : option (list (string * Handler))) (st : Exchange) : Completion Exchange :=
  match ls with
  | None => Throw TypeError
  | Some l => mret (emit (map (fun p => on p.1 p.2) l) st)
  end.

(** [nocompress(msg)]; the message only goes to the debug log. *)
Definition nocompress (msg : string) (st : Exchange) : Completion Exchange :=
  st ← addListeners TOn (listeners st) st;
  mret (with_listeners None st).

(** Lines 151-157: the method negotiated for the request. *)
Definition negotiate : jsval :=
  let method := accepts_encoding X req ["gzip"; "deflate"; "identity"] in
  if strict_eq method (VStr "deflate") && truthy (accepts_encoding X req ["gzip"])
  then accepts_encoding X req ["gzip"; "identity"]
  else method.

(** Line 131: the threshold test. *)
Definition below_threshold (st : Exchange) : bool :=
  js_lt X (VNum (ToNumber X (getHeader (res st) "Content-Length"))) (threshold cfg)
  || js_lt X (est_length st) (threshold cfg).

(** The listener given to [onHeaders]. *)
Definition onHeadersListener (st : Exchange) : Completion Exchange :=
  if negb (filter cfg req (res st)) then nocompress "filtered" st else
  let st := with_res (fun r => setHeader "Vary"
                        (vary_append X (getHeader r "Vary") "Accept-Encoding") r) st in
  if below_threshold st then nocompress "size below threshold" st else
  let encoding := js_or (getHeader (res st) "Content-Encoding") (VStr "identity") in
  if negb (strict_eq (VStr "identity") encoding) then nocompress "already encoded" st else
  if String.eqb "HEAD" (req_method req) then nocompress "HEAD request" st else
  let method := negotiate in
  if negb (truthy method) || strict_eq method (VStr "identity")
  then nocompress "not acceptable" st else
  let st := with_stream (Some (if strict_eq method (VStr "gzip") then Gzip else Deflate)) st in
  st ← addListeners SOn (listeners st) st;
  let st := with_flush FlushStream st in
  let st := with_res (setHeader "Content-Encoding" method) st in
  let st := with_res (removeHeader "Content-Length") st in
  mret (emit [SOn "data" RelayData; SOn "end" RelayEnd; TOn "drain" RelayResume] st).

(** Node's own [writeHead]: from here on the headers are committed. *)
Definition commit_headers (st : Exchange) : Exchange :=
  with_res (fun r => {| headers := headers r; header_sent := true |}) st.

(** [res.writeHead] as on-headers patches it, which is what
    [res._implicitHeader()] calls: the listener runs the first time only,
    then Node commits the headers. *)
Definition writeHead (st : Exchange) : Completion Exchange :=
  st ← (if fired st then mret st else onHeadersListener (with_fired true st));
  mret (commit_headers st).

(** What a proxy call hands back to the application. *)
Inductive Ret :=
| RUndef                (* [undefined] *)
| RThis                 (* [this] *)
| RTransport            (* what the original [write] / [end] / [on] returned *)
| RStream.              (* what the zlib stream's method returned *)

(** Lines 70-72 of the [res.write] proxy. *)
Definition write_commit (st : Exchange) : Completion Exchange :=
  if negb (header_sent (res st)) then writeHead st else mret st.

(** The proxy stored in [res.write]. *)
Definition res_write (chunk encoding : jsval) (st : Exchange) : Completion (Ret * Exchange) :=
  st ← write_commit st;
  match stream st with
  | Some _ =>
      buf ← new_Buffer X chunk encoding;
      mret (RStream, emit [SWrite buf] st)
  | None => mret (RTransport, emit [TWrite chunk encoding] st)
  end.

(** Lines 80-87 of the [res.end] proxy: estimate the length, commit. *)
Definition end_commit (chunk encoding : jsval) (st : Exchange) : Completion Exchange :=
  if negb (header_sent (res st)) then
    let st := if negb (truthy (getHeader (res st) "Content-Length"))
              then with_length (chunkLength chunk encoding) st
              else st in
    writeHead st
  else mret st.

(** The proxy stored in [res.end]. *)
Definition res_end (chunk encoding : jsval) (st : Exchange) : Completion (Ret * Exchange) :=
  st ← end_commit chunk encoding st;
  match stream st with
  | None => mret (RTransport, emit [TEnd chunk encoding] st)
  | Some _ =>
      if truthy chunk then
        buf ← new_Buffer X chunk encoding;
        mret (RStream, emit [SEnd (Some buf)] st)
      else mret (RStream, emit [SEnd None] st)
  end.

(** The proxy stored in [res.on]. *)
Definition res_on (type : string) (listener : Handler) (st : Exchange) : Ret * Exchange :=
  match listeners st with
  | Some l =>
      if negb (String.eqb type "drain") then (RTransport, emit [TOn type listener] st)
      else match stream st with
           | Some _ => (RStream, emit [SOn type listener] st)
           | None => (RThis, with_listeners (Some (l ++ [(type, listener)])) st)
           end
  | None => (RTransport, emit [TOn type listener] st)
  end.

(** The handler of the request's [close] event. *)
Definition on_close (st : Exchange) : Exchange := with_slots Noop Noop st.

(** [res.write(chunk, encoding)], [res.end(chunk, encoding)] and
    [res.flush()] as the application calls them: through whatever the
    property holds at that moment. *)
Definition call_write (chunk encoding : jsval) (st : Exchange) : Completion (Ret * Exchange) :=
  match write_slot st with
  | Proxy => res_write chunk encoding st
  | Noop => mret (RUndef, st)
  end.

Definition call_end (chunk encoding : jsval) (st : Exchange) : Completion (Ret * Exchange) :=
  match end_slot st with
  | Proxy => res_end chunk encoding st
  | Noop => mret (RUndef, st)
  end.

Definition call_flush (st : Exchange) : Ret * Exchange :=
  match flush_slot st with
  | FlushNoop => (RUndef, st)
  | FlushStream => (RUndef, emit [SFlush] st)
  end.

(** What can happen to an exchange once the middleware is installed: the
    application calls the response, or the connection closes. *)
Inductive Op :=
| OpWrite (chunk encoding : jsval)
| OpEnd (chunk encoding : jsval)
| OpOn (type : string) (listener : Handler)
| OpFlush
| OpSetHeader (name : string) (value : jsval)
| OpWriteHead
| OpClose.

Definition step (op : Op) (st : Exchange) : Completion (Ret * Exchange) :=
  match op with
  | OpWrite chunk encoding => call_write chunk encoding st
  | OpEnd chunk encoding => call_end chunk encoding st
  | OpOn type listener => mret (res_on type listener st)
  | OpFlush => mret (call_flush st)
  | OpSetHeader name value =>
      (* Node refuses header changes once the headers are sent *)
      if header_sent (res st) then Throw Error
      else mret (RUndef, with_res (setHeader name value) st)
  | OpWriteHead => st ← writeHead st; mret (RUndef, st)
  | OpClose => mret (RUndef, on_close st)
  end.

Fixpoint run (ops : list Op) (st : Exchange) : Completion (list Ret * Exchange) :=
  match ops with
  | [] => mret ([], st)
  | op :: rest =>
      p ← step op st;
      q ← run rest p.2;
      mret (p.1 :: q.1, q.2)
  end.

End Middleware.

(** ** A reference instance of the collaborators

    Executable stand-ins for the required packages, used to run the
    middleware on concrete exchanges.  Each follows the documented
    behaviour of its package on the inputs named in its comment; the
    general theorems do not depend on them. *)

Module Reference.

Definition is_digit (c : Ascii.ascii) : bool :=
  let n := Ascii.nat_of_ascii c in ((48 <=? n) && (n <=? 57))%nat.

Definition is_blank (c : Ascii.ascii) : bool :=
  let n := Ascii.nat_of_ascii c in ((n =? 32) || (n =? 9))%nat.

Fixpoint read_digits (s : string) (acc : Z) (count : nat) : Z * nat * string :=
  match s with
  | String c r =>
      if is_digit c
      then read_digits r (10 * acc + (Z.of_nat (Ascii.nat_of_ascii c) - 48)) (S count)
      else (acc, count, s)
  | EmptyString => (acc, count, s)
  end.

Fixpoint skip_blanks (s : string) : string :=
  match s with
  | String c r => if is_blank c then skip_blanks r else s
  | EmptyString => s
  end.

Definition read_sign (s : string) : Z * string :=
  match s with
  | String "-"%char r => (-1, r)
  | String "+"%char r => (1, r)
  | _ => (1, s)
  end.

(** An optionally signed run of decimal digits, blanks allowed around it:
    the strings on which ToNumber is an integer literal.  Exponents,
    fractions and hexadecimal literals have no reading here. *)
Definition StringToNumber (s : string) : jsnum :=
  let '(sign, r) := read_sign (skip_blanks s) in
  let '(v, n, r) := read_digits r 0 0 in
  match n, skip_blanks r with
  | S _, EmptyString => Num (sign * v)
  | _, _ => NaN
  end.

(** utf8, the default encoding: a string stands for its UTF-8 bytes. *)
Definition Buffer_byteLength (chunk encoding : jsval) : nat :=
  match chunk with
  | VStr s => String.length s
  | VBuf b => length b
  | _ => 0
  end.

Fixpoint bytes_of_string (s : string) : list Byte.byte :=
  match s with
  | EmptyString => []
  | String c r => Ascii.byte_of_ascii c :: bytes_of_string r
  end.

(** [new Buffer(value)] copies a string or a Buffer, allocates for a size
    and rejects the rest. *)
Definition new_Buffer (chunk encoding : jsval) : Completion (list Byte.byte) :=
  match chunk with
  | VStr s => Normal (bytes_of_string s)
  | VBuf b => Normal b
  | VNum (Num n) => if n <? 0 then Throw Error else Normal (replicate (Z.to_nat n) Byte.x00)
  | _ => Throw TypeError
  end.

Definition unit_factor (u : string) : option Z :=
  if String.eqb u "kb" then Some 1024
  else if String.eqb u "mb" then Some (1024 ^ 2)
  else if String.eqb u "gb" then Some (1024 ^ 3)
  else if String.eqb u "tb" then Some (1024 ^ 4)
  else None.

(** A size with a unit: sign, digits, an optional fraction, blanks, then
    kb, mb, gb or tb in any case; the product is rounded down. *)
Definition parse_size (s : string) : option Z :=
  let '(sign, r) := read_sign s in
  let '(i, n, r) := read_digits r 0 0 in
  let '(f, k, r) :=
    match r with
    | String "."%char r' =>
        let '(f, k, r'') := read_digits r' 0 0 in
        match k with O => (0, O, r) | _ => (f, k, r'') end
    | _ => (0, O, r)
    end in
  match n, unit_factor (lowercase (skip_blanks r)) with
  | S _, Some m => Some ((sign * m * (i * 10 ^ Z.of_nat k + f)) `div` (10 ^ Z.of_nat k))
  | _, _ => None
  end.

(** [parseInt(s, 10)]: the leading integer of the string. *)
Definition parseInt (s : string) : jsnum :=
  let '(sign, r) := read_sign (skip_blanks s) in
  let '(v, n, _) := read_digits r 0 0 in
  match n with
  | O => NaN
  | S _ => Num (sign * v)
  end.

(** [bytes.parse]: a number that is not NaN is returned as it is, a value
    that is neither number nor string gives [null], a string is read as a
    size with a unit or else as a plain integer of bytes.  It never
    throws. *)
Definition bytes_parse (v : jsval) : Completion jsval :=
  match v with
  | VNum (Num z) => Normal (VNum (Num z))
  | VStr s =>
      match parse_size s with
      | Some z => Normal (VNum (Num z))
      | None => Normal (VNum (parseInt s))
      end
  | _ => Normal VNull
  end.

Fixpoint prefix_of (p s : string) : bool :=
  match p, s with
  | EmptyString, _ => true
  | String a p', String b s' => Ascii.eqb a b && prefix_of p' s'
  | _, _ => false
  end.

Fixpoint before_char (c : Ascii.ascii) (s : string) : string :=
  match s with
  | EmptyString => EmptyString
  | String a r => if Ascii.eqb a c then EmptyString else String a (before_char c r)
  end.

Fixpoint trim_right (s : string) : string :=
  match s with
  | EmptyString => EmptyString
  | String a r =>
      match trim_right r with
      | EmptyString => if is_blank a then EmptyString else String a EmptyString
      | r' => String a r'
      end
  end.

Definition trim (s : string) : string := trim_right (skip_blanks s).

(** An excerpt of the compressibility table: text types and the usual
    JSON, JavaScript and XML application types; parameters are ignored. *)
Definition compressible (type : jsval) : jsval :=
  match type with
  | VStr s =>
      let t := lowercase (trim (before_char ";"%char s)) in
      VBool (prefix_of "text/" t
             || String.eqb t "application/json"
             || String.eqb t "application/javascript"
             || String.eqb t "application/xml")
  | _ => VBool false
  end.

Fixpoint split_on (c : Ascii.ascii) (s : string) : list string :=
  match s with
  | EmptyString => [EmptyString]
  | String a r =>
      if Ascii.eqb a c then EmptyString :: split_on c r
      else match split_on c r with
           | [] => [String a EmptyString]
           | w :: ws => String a w :: ws
           end
  end.

Definition string_in (s : string) (l : list string) : bool :=
  existsb (String.eqb s) l.

(** The header value [vary] stores: the field is appended to the
    comma-separated list unless the list has it already (in any case) or
    is the wildcard. *)
Definition vary_append (current : jsval) (field : string) : jsval :=
  match js_or current (VStr "") with
  | VStr h =>
      let fields := map (fun w => lowercase (trim w)) (split_on ","%char h) in
      if string_in "*" fields then VStr "*"
      else if string_in (lowercase field) fields then VStr h
      else if String.eqb h "" then VStr field
      else VStr (h +:+ ", " +:+ field)
  | _ => VStr field
  end.

(** Negotiation of the content coding, after the negotiator package: each
    candidate takes the weight of the header entry naming it (or of the
    wildcard), identity is acceptable at the lowest listed weight when the
    header does not mention it, candidates of weight zero are dropped, and
    the winner has the highest weight, an exact name before the wildcard,
    the earlier header entry, the earlier candidate, in that order. *)
Record Priority := {
  p_q : N;       (* weight, in thousandths *)
  p_s : nat;     (* 1 for an exact name, 0 for the wildcard *)
  p_o : nat;     (* position of the entry in the header *)
  p_i : nat;     (* position of the candidate in the list offered *)
}.

Definition specify (coding : string) (i : nat) (o : nat) (spec : string * N) : option Priority :=
  if String.eqb (lowercase spec.1) (lowercase coding)
  then Some {| p_q := spec.2; p_s := 1; p_o := o; p_i := i |}
  else if String.eqb spec.1 "*"
  then Some {| p_q := spec.2; p_s := 0; p_o := o; p_i := i |}
  else None.

Definition parseAcceptEncoding (header : option (list (string * N))) : list (string * N) :=
  let specs := default [] header in
  let hasIdentity := existsb (fun sp => bool_decide (is_Some (specify "identity" 0 0 sp))) specs in
  let minQuality := foldr (fun sp m => if (sp.2 =? 0)%N then m else N.min m sp.2) 1000%N specs in
  if hasIdentity then specs else specs ++ [("identity", minQuality)].

(** The entry that decides a candidate: the most specific, then the
    heaviest, then the first. *)
Definition more_specific (a b : Priority) : bool :=
  ((p_s b <? p_s a) || ((p_s a =? p_s b) && (p_q b <? p_q a)%N))%nat.

Fixpoint getEncodingPriority (coding : string) (i o : nat) (specs : list (string * N))
    (best : option Priority) : option Priority :=
  match specs with
  | [] => best
  | sp :: rest =>
      let best :=
        match specify coding i o sp, best with
        | Some p, Some b => if more_specific p b then Some p else best
        | Some p, None => Some p
        | None, _ => best
        end in
      getEncodingPriority coding i (S o) rest best
  end.

(** [compareSpecs]: does [a] sort strictly before [b]? *)
Definition sorts_before (a b : Priority) : bool :=
  if negb (p_q a =? p_q b)%N then (p_q b <? p_q a)%N
  else if negb (p_s a =? p_s b)%nat then (p_s b <? p_s a)%nat
  else if negb (p_o a =? p_o b)%nat then (p_o a <? p_o b)%nat
  else (p_i a <? p_i b)%nat.

Fixpoint preferred (specs : list (string * N)) (i : nat) (provided : list string)
    (best : option (string * Priority)) : option (string * Priority) :=
  match provided with
  | [] => best
  | c :: rest =>
      let best :=
        match getEncodingPriority c i 0 specs None with
        | Some p =>
            if (p_q p =? 0)%N then best
            else match best with
                 | Some (_, b) => if sorts_before p b then Some (c, p) else best
                 | None => Some (c, p)
                 end
        | None => best
        end in
      preferred specs (S i) rest best
  end.

(** [accepts(req).encoding(provided)]: the first preferred candidate, or
    [false]. *)
Definition accepts_encoding (req : Request) (provided : list string) : jsval :=
  match preferred (parseAcceptEncoding (req_accept_encoding req)) 0 provided None with
  | Some (c, _) => VStr c
  | None => VBool false
  end.

Definition node : Collaborators :=
  Build_Collaborators StringToNumber Buffer_byteLength new_Buffer bytes_parse
    compressible vary_append accepts_encoding.

End Reference.

(** ** Sample exchanges *)

Definition GET (accept : option (list (string * N))) : Request :=
  {| req_method := "GET"; req_accept_encoding := accept |}.

(** A request sent with [Accept-Encoding: gzip]. *)
Definition get_gzip : Request := GET (Some [("gzip", 1000%N)]).

(** [Accept-Encoding: deflate, gzip]. *)
Definition get_deflate_gzip : Request :=
  GET (Some [("deflate", 1000%N); ("gzip", 1000%N)]).

(** [Accept-Encoding: deflate, identity, gzip]. *)
Definition get_deflate_identity_gzip : Request :=
  GET (Some [("deflate", 1000%N); ("identity", 1000%N); ("gzip", 1000%N)]).

(** A response on which only [Content-Type: text/html] has been set. *)
Definition html : Response :=
  {| headers := {[ "content-type" := VStr "text/html" ]}; header_sent := false |}.

(** The same with a Content-Length header. *)
Definition html_with_length (v : jsval) : Response :=
  {| headers := {[ "content-type" := VStr "text/html"; "content-length" := v ]};
     header_sent := false |}.

(** A response on which no header has been set. *)
Definition bare : Response :=
  {| headers := ∅; header_sent := false |}.

(** The middleware [compression()] returns: default filter, 1024 bytes. *)
Definition default_config : Config :=
  {| filter := shouldCompress Reference.node; threshold := VNum (Num 1024) |}.

(** ** Vocabulary of the statements *)

Definition is_undefined (v : jsval) : bool :=
  match v with
  | VUndef => true
  | _ => false
  end.

(** An exchange on which the Decision Point has not fired: headers not
    committed, no estimate, no stream, [listeners] still an array. *)
Definition pending (st : Exchange) : bool :=
  negb (fired st) && negb (header_sent (res st)) && is_undefined (est_length st)
  && match stream st with None => true | Some _ => false end
  && match listeners st with Some _ => true | None => false end.

Section Outcomes.

Variable X : Collaborators.
Variable cfg : Config.
Variable req : Request.

(** [res] once line 128 has run. *)
Definition varied (st : Exchange) : Exchange :=
  with_res (fun r => setHeader "Vary"
              (vary_append X (getHeader r "Vary") "Accept-Encoding") r) st.

(** The branch the listener leaves by, named after the message it logs. *)
Inductive Outcome :=
| Filtered
| BelowThreshold
| AlreadyEncoded
| HeadRequest
| NotAcceptable
| Compress (method : jsval).

Definition decide_outcome (st : Exchange) : Outcome :=
  if negb (filter cfg req (res st)) then Filtered
  else if below_threshold X cfg st then BelowThreshold
  else if negb (strict_eq (VStr "identity")
                  (js_or (getHeader (res st) "Content-Encoding") (VStr "identity")))
  then AlreadyEncoded
  else if String.eqb "HEAD" (req_method req) then HeadRequest
  else if negb (truthy (negotiate X req)) || strict_eq (negotiate X req) (VStr "identity")
  then NotAcceptable
  else Compress (negotiate X req).

Definition replay (on : string -> Handler -> Action) (l : list (string * Handler)) : list Action :=
  map (fun p => on p.1 p.2) l.

Definition codec_of (method : jsval) : Codec :=
  if strict_eq method (VStr "gzip") then Gzip else Deflate.

(** The state each branch leaves, [l] being the listeners buffered so far. *)
Definition settle (o : Outcome) (l : list (string * Handler)) (st : Exchange) : Exchange :=
  match o with
  | Filtered => with_listeners None (emit (replay TOn l) st)
  | Compress method =>
      emit [SOn "data" RelayData; SOn "end" RelayEnd; TOn "drain" RelayResume]
        (with_res (removeHeader "Content-Length")
           (with_res (setHeader "Content-Encoding" method)
              (with_flush FlushStream
                 (emit (replay SOn l)
                    (with_stream (Some (codec_of method)) (varied st))))))
  | _ => with_listeners None (emit (replay TOn l) (varied st))
  end.

(** An exchange that passes every rule of the Decision Point other than
    the threshold: the filter accepts it, no content coding is declared,
    the request is not a HEAD, and negotiation yields a real method. *)
Definition eligible (st : Exchange) : bool :=
  filter cfg req (res st)
  && strict_eq (VStr "identity")
       (js_or (getHeader (res st) "Content-Encoding") (VStr "identity"))
  && negb (String.eqb "HEAD" (req_method req))
  && truthy (negotiate X req)
  && negb (strict_eq (negotiate X req) (VStr "identity")).

(** The body length the Decision Point gets to see when [end(chunk,
    encoding)] commits the headers: the number in the Content-Length
    header when one is set, else the number estimated from the chunk. *)
Definition known_length (st : Exchange) (chunk encoding : jsval) : option Z :=
  match getHeader (res st) "Content-Length" with
  | VUndef =>
      match chunkLength X chunk encoding with
      | VNum (Num n) => Some n
      | _ => None
      end
  | h =>
      match ToNumber X h with
      | Num n => Some n
      | NaN => None
      end
  end.

(** What the threshold boundary asks of the state [st'] the Decision Point
    leaves, for a threshold [T] and a known length [L]: at [T - 1] no stream
    and Content-Encoding as it was in [st]; at [T] the stream of the
    negotiated method and Content-Encoding set to that method. *)
Definition boundary_respected (st st' : Exchange) (T L : Z) : Prop :=
  (L = T - 1 →
   stream st' = None
   ∧ getHeader (res st') "Content-Encoding" = getHeader (res st) "Content-Encoding")
  ∧ (L = T →
     stream st' = Some (codec_of (negotiate X req))
     ∧ getHeader (res st') "Content-Encoding" = negotiate X req).

End Outcomes.

(** *** After close *)

(** Both [res.write] and [res.end] hold the no-op. *)
Definition closed (st : Exchange) : Prop :=
  write_slot st = Noop ∧ end_slot st = Noop.

(** *** Subscriptions *)

Definition is_drain (p : string * Handler) : bool := String.eqb p.1 "drain".

(** A run of [res.on(type, listener)] calls, first to last. *)
Definition subscribe (subs : list (string * Handler)) (st : Exchange) : Exchange :=
  foldl (fun st p => (res_on p.1 p.2 st).2) st subs.

Definition is_subscription (a : Action) : bool :=
  match a with
  | TOn _ _ | SOn _ _ => true
  | _ => false
  end.

(** The [on] calls made on the transport and on the stream, in order. *)
Definition subscriptions (t : list Action) : list Action :=
  List.filter is_subscription t.

(** The [on] calls the application makes in a sequence of operations. *)
Definition ons_of (ops : list Op) : list (string * Handler) :=
  omap (fun op => match op with OpOn type listener => Some (type, listener) | _ => None end) ops.

(** Where a subscription made after the decision goes: to the stream when
    there is one and the event is drain, else to the original [on]. *)
Definition direct (st : Exchange) (p : string * Handler) : Action :=
  match listeners st, stream st with
  | Some _, Some _ => if is_drain p then SOn p.1 p.2 else TOn p.1 p.2
  | _, _ => TOn p.1 p.2
  end.

(** The Decision Point has fired and [res.on] no longer buffers. *)
Definition decided (st : Exchange) : Prop :=
  fired st = true ∧ (listeners st = None ∨ stream st ≠ None).

(** Two states with the same flag, listeners, stream and trace. *)
Definition same_wiring (st st' : Exchange) : Prop :=
  fired st' = fired st ∧ listeners st' = listeners st
  ∧ stream st' = stream st ∧ trace st' = trace st.

(** Unfold the plumbing of [Completion]. *)
Ltac completion :=
  unfold mbind, Completion_bind, mret, Completion_ret in *.

(** *** States the exchange can be in *)

(** The only call made before the Decision Point fires: a subscription to
    another event than drain, handed to the original [on]. *)
Definition quiet_action (a : Action) : bool :=
  match a with
  | TOn type _ => negb (String.eqb type "drain")
  | _ => false
  end.

(** What holds of every state reached from [install]: before the Decision
    Point fires the exchange is pending, [flush] is the no-op and nothing
    but quiet calls has been made; afterwards the headers are committed,
    and either there is no stream, [listeners] is null and [flush] is the
    no-op, or there is a stream, [listeners] is still an array and [flush]
    reaches the stream. *)
Definition wired (st : Exchange) : Prop :=
  if fired st
  then header_sent (res st) = true
       ∧ match stream st with
         | None => listeners st = None ∧ flush_slot st = FlushNoop
         | Some _ => is_Some (listeners st) ∧ flush_slot st = FlushStream
         end
  else pending st = true ∧ flush_slot st = FlushNoop
       ∧ forallb quiet_action (trace st) = true.

(** [res.write(chunk, encoding)] for each pair, in order. *)
Definition writes (chunks : list (jsval * jsval)) : list Op :=
  map (fun c => OpWrite c.1 c.2) chunks.

(** *** More sample exchanges *)

(** A HEAD request sent with [Accept-Encoding: gzip]. *)
Definition head_gzip : Request :=
  {| req_method := "HEAD"; req_accept_encoding := Some [("gzip", 1000%N)] |}.

(** An HTML response the application has already encoded with brotli. *)
Definition html_encoded_br : Response :=
  {| headers := {[ "content-type" := VStr "text/html"; "content-encoding" := VStr "br" ]};
     header_sent := false |}.

(** A middleware whose threshold option parsed to NaN. *)
Definition nan_config : Config :=
  {| filter := shouldCompress Reference.node; threshold := VNum NaN |}.

(** ** Sanity checks of the reference instance *)

Example ex_parse_1kb : Reference.bytes_parse (VStr "1kb") = Normal (VNum (Num 1024)).
Proof. vm_compute. reflexivity. Qed.

Example ex_parse_fraction : Reference.bytes_parse (VStr "1.5 MB") = Normal (VNum (Num 1572864)).
Proof. vm_compute. reflexivity. Qed.

Example ex_parse_plain : Reference.bytes_parse (VStr "512") = Normal (VNum (Num 512)).
Proof. vm_compute. reflexivity. Qed.

Example ex_parse_unreadable : Reference.bytes_parse (VStr "abc") = Normal (VNum NaN).
Proof. vm_compute. reflexivity. Qed.

Example ex_vary_appends :
  Reference.vary_append (VStr "Origin") "Accept-Encoding" = VStr "Origin, Accept-Encoding".
Proof. vm_compute. reflexivity. Qed.

Example ex_vary_present :
  Reference.vary_append (VStr "Origin, accept-encoding") "Accept-Encoding"
  = VStr "Origin, accept-encoding".
Proof. vm_compute. reflexivity. Qed.

Example ex_negotiate_absent_header :
  Reference.accepts_encoding (GET None) ["gzip"; "deflate"; "identity"] = VStr "identity".
Proof. vm_compute. reflexivity. Qed.

Example ex_negotiate_header_order :
  Reference.accepts_encoding (GET (Some [("deflate", 1000%N); ("gzip", 1000%N)]))
    ["gzip"; "deflate"; "identity"] = VStr "deflate".
Proof. vm_compute. reflexivity. Qed.

Example ex_negotiate_refused :
  Reference.accepts_encoding (GET (Some [("identity", 0%N)])) ["gzip"] = VBool false.
Proof. vm_compute. reflexivity. Qed.

Example ex_compressible_html :
  Reference.compressible (VStr "text/html; charset=utf-8") = VBool true.
Proof. vm_compute. reflexivity. Qed.

(** ** Facts about the header store *)

Lemma getHeader_setHeader_eq (name : string) (v : jsval) (r : Response) :
  getHeader (setHeader name v r) name = v.
Proof. unfold getHeader, setHeader; simpl. by rewrite lookup_insert_eq. Qed.

Lemma getHeader_setHeader_ne (a b : string) (v : jsval) (r : Response) :
  lowercase a ≠ lowercase b → getHeader (setHeader a v r) b = getHeader r b.
Proof. intros Hne. unfold getHeader, setHeader; simpl. by rewrite lookup_insert_ne. Qed.

Lemma getHeader_removeHeader_eq (name : string) (r : Response) :
  getHeader (removeHeader name r) name = VUndef.
Proof. unfold getHeader, removeHeader; simpl. by rewrite lookup_delete_eq. Qed.

Lemma getHeader_removeHeader_ne (a b : string) (r : Response) :
  lowercase a ≠ lowercase b → getHeader (removeHeader a r) b = getHeader r b.
Proof. intros Hne. unfold getHeader, removeHeader; simpl. by rewrite lookup_delete_ne. Qed.

(** ** The Decision Point, case by case *)

Section Decision.

Variable X : Collaborators.
Variable cfg : Config.
Variable req : Request.

Lemma below_threshold_varied (st : Exchange) :
  below_threshold X cfg (varied X st) = below_threshold X cfg st.
Proof.
  unfold below_threshold, varied; simpl.
  by rewrite getHeader_setHeader_ne.
Qed.

Lemma content_encoding_varied (st : Exchange) :
  getHeader (res (varied X st)) "Content-Encoding" = getHeader (res st) "Content-Encoding".
Proof. unfold varied; simpl. by rewrite getHeader_setHeader_ne. Qed.

Lemma nocompress_buffered (msg : string) (st : Exchange) (l : list (string * Handler)) :
  listeners st = Some l →
  nocompress msg st = Normal (with_listeners None (emit (replay TOn l) st)).
Proof. intros Hl. unfold nocompress, addListeners. by rewrite Hl. Qed.

(** The listener never throws while [listeners] is an array, and leaves
    the state [settle] describes. *)
Lemma onHeadersListener_settle (st : Exchange) (l : list (string * Handler)) :
  listeners st = Some l →
  onHeadersListener X cfg req st = Normal (settle X (decide_outcome X cfg req st) l st).
Proof.
  intros Hl. unfold onHeadersListener, decide_outcome.
  destruct (filter cfg req (res st)); cbn [negb].
  2: { by apply nocompress_buffered. }
  fold (varied X st).
  rewrite below_threshold_varied, content_encoding_varied.
  assert (Hv : listeners (varied X st) = Some l) by done.
  destruct (below_threshold X cfg st).
  { by apply nocompress_buffered. }
  destruct (strict_eq _ (js_or _ _)); cbn [negb].
  2: { by apply nocompress_buffered. }
  destruct (String.eqb "HEAD" (req_method req)).
  { by apply nocompress_buffered. }
  destruct (negb (truthy (negotiate X req)) || strict_eq (negotiate X req) (VStr "identity")).
  { by apply nocompress_buffered. }
  unfold addListeners; cbn [listeners with_stream]. rewrite Hv. reflexivity.
Qed.

Lemma pending_inv (st : Exchange) :
  pending st = true →
  fired st = false ∧ header_sent (res st) = false ∧ est_length st = VUndef
  ∧ stream st = None ∧ ∃ l, listeners st = Some l.
Proof.
  unfold pending. intros H.
  destruct (fired st), (header_sent (res st)), (est_length st), (stream st),
    (listeners st); try discriminate H; eauto 10.
Qed.

(** The first [writeHead] runs the listener, then commits. *)
Lemma writeHead_first (st : Exchange) (l : list (string * Handler)) :
  fired st = false → listeners st = Some l →
  writeHead X cfg req st
  = Normal (commit_headers
              (settle X (decide_outcome X cfg req st) l (with_fired true st))).
Proof.
  intros Hf Hl. unfold writeHead. rewrite Hf.
  rewrite (onHeadersListener_settle _ l) by done. reflexivity.
Qed.

(** Every later one only commits. *)
Lemma writeHead_again (st : Exchange) :
  fired st = true → writeHead X cfg req st = Normal (commit_headers st).
Proof. intros Hf. unfold writeHead. by rewrite Hf. Qed.

End Decision.

(** ** The threshold rule *)

Section Threshold.

Variable X : Collaborators.
Variable cfg : Config.
Variable req : Request.

Lemma falsy_number (h : jsval) (z : Z) :
  truthy h = false → ToNumber X h = Num z → z = 0.
Proof.
  destruct h as [| |b|n|s|b]; simpl; try discriminate.
  - intros _ [= <-]. reflexivity.
  - intros -> [= <-]. reflexivity.
  - destruct n as [|k]; [discriminate|].
    intros Hk [= <-]. apply Z.eqb_eq. by destruct (k =? 0).
  - destruct (String.eqb s ""); [|discriminate]. intros _ [= <-]. reflexivity.
Qed.

Lemma chunkLength_cases (chunk encoding : jsval) :
  chunkLength X chunk encoding = VUndef
  ∨ ∃ n : nat, chunkLength X chunk encoding = VNum (Num (Z.of_nat n)).
Proof.
  unfold chunkLength. destruct (truthy chunk); simpl; [|by left].
  right. destruct chunk; eauto.
Qed.

(** With a header that reads as the number [L], the test of line 131 is
    [L < T] whatever the estimate: the estimate is only made under a falsy
    header, which reads as 0, and no estimate is below 0. *)
Lemma header_known_below (h chunk encoding : jsval) (L T : Z) :
  match ToNumber X h with Num n => Some n | NaN => None end = Some L →
  num_lt (ToNumber X h) (Num T)
  || num_lt (ToNumber X (if truthy h then VUndef else chunkLength X chunk encoding)) (Num T)
  = (L <? T).
Proof.
  destruct (ToNumber X h) as [|k] eqn:Hn; [discriminate|]. intros [= ->].
  cbn [num_lt]. destruct (truthy h) eqn:Ht; [by rewrite orb_false_r|].
  pose proof (falsy_number h L Ht Hn) as ->.
  destruct (chunkLength_cases chunk encoding) as [-> | [n ->]]; cbn.
  - by rewrite orb_false_r.
  - destruct (0 <? T) eqn:H0; [done|]. cbn.
    apply Z.ltb_ge. apply Z.ltb_ge in H0. lia.
Qed.

Lemma eligible_outcome (st : Exchange) :
  eligible X cfg req st = true →
  decide_outcome X cfg req st
  = if below_threshold X cfg st then BelowThreshold else Compress (negotiate X req).
Proof.
  unfold eligible, decide_outcome. intros H.
  repeat (apply andb_prop in H as [H ?]).
  rewrite H. cbn [negb].
  destruct (below_threshold X cfg st); [done|].
  destruct (strict_eq (VStr "identity") _); [|done]. cbn [negb].
  destruct (String.eqb "HEAD" (req_method req)); [done|].
  destruct (truthy (negotiate X req)); [|done].
  destruct (strict_eq (negotiate X req) (VStr "identity")); done.
Qed.

Lemma getHeader_commit_headers (st : Exchange) (name : string) :
  getHeader (res (commit_headers st)) name = getHeader (res st) name.
Proof. reflexivity. Qed.

Lemma res_settle (o : Outcome) (l : list (string * Handler)) (st : Exchange) :
  res (settle X o l st)
  = match o with
    | Filtered => res st
    | Compress method =>
        removeHeader "Content-Length"
          (setHeader "Content-Encoding" method (res (varied X st)))
    | _ => res (varied X st)
    end.
Proof. by destruct o. Qed.

Lemma stream_settle (o : Outcome) (l : list (string * Handler)) (st : Exchange) :
  stream (settle X o l st)
  = match o with
    | Compress method => Some (codec_of method)
    | _ => stream st
    end.
Proof. by destruct o. Qed.

(** The state [end(chunk, encoding)] hands to [writeHead]. *)
Lemma end_commit_pending (st : Exchange) (chunk encoding : jsval) :
  pending st = true →
  ∃ st0 l,
    end_commit X cfg req chunk encoding st
    = Normal (commit_headers
                (settle X (decide_outcome X cfg req st0) l (with_fired true st0)))
    ∧ res st0 = res st ∧ stream st0 = None ∧ trace st0 = trace st
    ∧ listeners st0 = Some l ∧ listeners st = Some l
    ∧ est_length st0
      = (if truthy (getHeader (res st) "Content-Length") then VUndef
         else chunkLength X chunk encoding).
Proof.
  intros Hp. destruct (pending_inv st Hp) as (Hf & Hs & Hlen & Hstr & l & Hl).
  unfold end_commit. rewrite Hs. cbn [negb].
  destruct (truthy (getHeader (res st) "Content-Length")) eqn:Hcl; cbn [negb].
  - exists st, l. rewrite (writeHead_first _ _ _ _ l) by done. done.
  - exists (with_length (chunkLength X chunk encoding) st), l.
    rewrite (writeHead_first _ _ _ _ l) by done. done.
Qed.

(** On an eligible exchange whose threshold test is [L < T], the state
    the Decision Point leaves respects the boundary. *)
Lemma settle_boundary (st st0 : Exchange) (l : list (string * Handler)) (T L : Z) :
  res st0 = res st → stream st0 = None →
  eligible X cfg req st = true →
  below_threshold X cfg st0 = (L <? T) →
  boundary_respected X req st
    (commit_headers (settle X (decide_outcome X cfg req st0) l (with_fired true st0))) T L.
Proof.
  intros Hres Hstr He Hb.
  assert (He0 : eligible X cfg req st0 = true).
  { unfold eligible. rewrite Hres. exact He. }
  rewrite (eligible_outcome st0 He0), Hb. split.
  - intros ->. replace (T - 1 <? T) with true by (symmetry; apply Z.ltb_lt; lia).
    split; [exact Hstr|].
    rewrite getHeader_commit_headers, res_settle.
    rewrite content_encoding_varied.
    change (res (with_fired true st0)) with (res st0). by rewrite Hres.
  - intros ->. rewrite Z.ltb_irrefl. split; [reflexivity|].
    rewrite getHeader_commit_headers, res_settle.
    rewrite getHeader_removeHeader_ne by done.
    apply getHeader_setHeader_eq.
Qed.

(** C1.  Threshold boundary.  Take an exchange on which the Decision Point
    has not fired and which passes every rule other than the threshold,
    a numeric threshold [T], and an [end(chunk, encoding)] call at which
    the body length [L] is known, from the Content-Length header or from
    the estimate made of the chunk.  The call commits the headers; when
    [L = T - 1] no stream is created and Content-Encoding is left as it
    was, when [L = T] the stream of the negotiated method is created and
    Content-Encoding is set to that method.  When the length is known from
    the header, the same holds if a [write] commits the headers instead. *)
Theorem threshold_boundary (st : Exchange) (chunk encoding : jsval) (T L : Z) :
  pending st = true →
  eligible X cfg req st = true →
  ToNumber X (threshold cfg) = Num T →
  known_length X st chunk encoding = Some L →
  (∃ st', end_commit X cfg req chunk encoding st = Normal st'
     ∧ boundary_respected X req st st' T L)
  ∧ (getHeader (res st) "Content-Length" ≠ VUndef →
     ∃ st', write_commit X cfg req st = Normal st'
       ∧ boundary_respected X req st st' T L).
Proof.
  intros Hp He HT Hk. split.
  - destruct (end_commit_pending st chunk encoding Hp)
      as (st0 & l & -> & Hres & Hstr & _ & Hl & _ & Hlen).
    eexists; split; [reflexivity|].
    apply settle_boundary; [exact Hres | exact Hstr | exact He |].
    unfold below_threshold, js_lt. rewrite Hres, Hlen, HT.
    unfold known_length in Hk.
    destruct (getHeader (res st) "Content-Length") as [| |b|n|s|b] eqn:Hh;
      try (match type of Hk with
           | context [ToNumber X ?h] =>
               exact (header_known_below h chunk encoding L T Hk)
           end).
    cbn [truthy ToNumber num_lt orb].
    destruct (chunkLength X chunk encoding) as [| | |[|k]| |]; try discriminate Hk.
    injection Hk as ->. reflexivity.
  - intros Hset.
    destruct (pending_inv st Hp) as (Hf & Hs & Hlen & Hstr & l & Hl).
    eexists. split.
    { unfold write_commit. rewrite Hs. cbn [negb]. by apply writeHead_first. }
    apply settle_boundary; [reflexivity | exact Hstr | exact He |].
    unfold below_threshold, js_lt. rewrite Hlen, HT. cbn [ToNumber num_lt].
    rewrite orb_false_r. unfold known_length in Hk.
    destruct (getHeader (res st) "Content-Length") as [| |b|n|s|b] eqn:Hh;
      [by destruct Hset | ..];
      match type of Hk with
      | context [ToNumber X ?h] =>
          destruct (ToNumber X h); [discriminate Hk | by injection Hk as ->]
      end.
Qed.

End Threshold.

Lemma threshold_boundary_witness :
  (∃ st',
     end_commit Reference.node default_config get_gzip VUndef VUndef
       (install (html_with_length (VStr "1023"))) = Normal st'
     ∧ boundary_respected Reference.node get_gzip
         (install (html_with_length (VStr "1023"))) st' 1024 1023)
  ∧ (getHeader (res (install (html_with_length (VStr "1023")))) "Content-Length" ≠ VUndef →
     ∃ st',
       write_commit Reference.node default_config get_gzip
         (install (html_with_length (VStr "1023"))) = Normal st'
       ∧ boundary_respected Reference.node get_gzip
           (install (html_with_length (VStr "1023"))) st' 1024 1023).
Proof.
  apply (threshold_boundary Reference.node default_config get_gzip
           (install (html_with_length (VStr "1023"))) VUndef VUndef 1024 1023);
    vm_compute; reflexivity.
Defined.

(** The boundary, run with the estimate made at [end]: threshold 4, a
    chunk of 3 bytes goes out as it is, a chunk of 4 bytes is compressed. *)
Example ex_boundary_by_estimate :
  (st' ← end_commit Reference.node
           {| filter := shouldCompress Reference.node; threshold := VNum (Num 4) |}
           get_gzip (VStr "abc") VUndef (install html);
   mret (est_length st', stream st', getHeader (res st') "Content-Encoding"))
  = Normal (VNum (Num 3), None, VUndef)
  ∧ (st' ← end_commit Reference.node
             {| filter := shouldCompress Reference.node; threshold := VNum (Num 4) |}
             get_gzip (VStr "abcd") VUndef (install html);
     mret (est_length st', stream st', getHeader (res st') "Content-Encoding"))
    = Normal (VNum (Num 4), Some Gzip, VStr "gzip").
Proof. split; vm_compute; reflexivity. Qed.

(** ** What the Decision Point does to the headers and to the estimate *)

Section Commit.

Variable X : Collaborators.
Variable cfg : Config.
Variable req : Request.

Lemma est_length_settle (o : Outcome) (l : list (string * Handler)) (st : Exchange) :
  est_length (settle X o l st) = est_length st.
Proof. by destruct o. Qed.

Lemma trace_settle_nocompress (o : Outcome) (l : list (string * Handler)) (st : Exchange) :
  (∀ method, o ≠ Compress method) →
  trace (settle X o l st) = trace st ++ replay TOn l.
Proof. destruct o; intros H; try done. by destruct (H method). Qed.

Lemma vary_settle (o : Outcome) (l : list (string * Handler)) (st : Exchange) :
  o ≠ Filtered →
  getHeader (res (settle X o l st)) "Vary"
  = vary_append X (getHeader (res st) "Vary") "Accept-Encoding".
Proof.
  intros Ho. rewrite res_settle.
  destruct o; try done; unfold varied; cbn [res with_res].
  5: rewrite getHeader_removeHeader_ne, getHeader_setHeader_ne by done.
  all: apply getHeader_setHeader_eq.
Qed.

Lemma write_commit_pending (st : Exchange) :
  pending st = true →
  ∃ l, listeners st = Some l
    ∧ write_commit X cfg req st
      = Normal (commit_headers
                  (settle X (decide_outcome X cfg req st) l (with_fired true st))).
Proof.
  intros Hp. destruct (pending_inv st Hp) as (Hf & Hs & _ & _ & l & Hl).
  exists l. split; [done|]. unfold write_commit. rewrite Hs. cbn [negb].
  by apply writeHead_first.
Qed.

(** C10.  On a response with no Content-Type header the default filter
    answers false; with that filter configured, the Decision Point of an
    exchange on which it has not fired yet takes the no-compression path:
    no stream is created, no header is touched, and the buffered listeners
    go to the transport. *)
Theorem no_content_type_no_compression (st : Exchange) :
  filter cfg = shouldCompress X →
  getHeader (res st) "Content-Type" = VUndef →
  pending st = true →
  shouldCompress X req (res st) = false
  ∧ ∃ st' l, listeners st = Some l
      ∧ writeHead X cfg req st = Normal st'
      ∧ stream st' = None
      ∧ listeners st' = None
      ∧ headers (res st') = headers (res st)
      ∧ trace st' = trace st ++ replay TOn l.
Proof.
  intros Hflt Hty Hp.
  assert (Hsc : shouldCompress X req (res st) = false).
  { unfold shouldCompress. by rewrite Hty. }
  split; [exact Hsc|].
  destruct (pending_inv st Hp) as (Hf & _ & _ & Hstr & l & Hl).
  eexists _, l. split; [exact Hl|].
  split; [by apply writeHead_first|].
  assert (Ho : decide_outcome X cfg req st = Filtered).
  { unfold decide_outcome. by rewrite Hflt, Hsc. }
  rewrite Ho. by repeat split.
Qed.

(** C7, as the code has it.  When the filter accepts the exchange, the
    Decision Point stores in Vary what [vary] computes for the field
    Accept-Encoding, whichever branch it then leaves by; when the filter
    rejects the exchange, it leaves every header as it was. *)
Theorem vary_set_once_filter_accepts (st : Exchange) :
  pending st = true →
  ∃ st', writeHead X cfg req st = Normal st'
    ∧ (filter cfg req (res st) = true →
       getHeader (res st') "Vary"
       = vary_append X (getHeader (res st) "Vary") "Accept-Encoding")
    ∧ (filter cfg req (res st) = false → headers (res st') = headers (res st)).
Proof.
  intros Hp. destruct (pending_inv st Hp) as (Hf & _ & _ & _ & l & Hl).
  eexists. split; [by apply writeHead_first|]. split.
  - intros Hflt. rewrite getHeader_commit_headers, vary_settle; [done|].
    unfold decide_outcome. rewrite Hflt. cbn [negb].
    repeat match goal with |- context [if ?c then _ else _] => destruct c end; done.
  - intros Hflt. unfold decide_outcome. by rewrite Hflt.
Qed.

(** C2, as the code has it.  A [write] before the headers are committed
    fires the Decision Point with no length estimate: [length] is still
    undefined afterwards, so with no Content-Length header the threshold
    rule lets an otherwise eligible exchange through, whatever the size of
    the chunk.  The chunk is then handed to the target selected: to the
    original [write] as it is, or to the stream as a Buffer. *)
Theorem write_fires_decision_without_estimate (st : Exchange) (chunk encoding : jsval) :
  pending st = true →
  ∃ st', write_commit X cfg req st = Normal st'
    ∧ est_length st' = VUndef
    ∧ (getHeader (res st) "Content-Length" = VUndef →
       eligible X cfg req st = true →
       stream st' = Some (codec_of (negotiate X req)))
    ∧ (stream st' = None →
       res_write X cfg req chunk encoding st
       = Normal (RTransport, emit [TWrite chunk encoding] st'))
    ∧ (∀ buf, stream st' ≠ None →
       new_Buffer X chunk encoding = Normal buf →
       res_write X cfg req chunk encoding st
       = Normal (RStream, emit [SWrite buf] st')).
Proof.
  intros Hp. destruct (pending_inv st Hp) as (_ & _ & Hlen & _ & _).
  destruct (write_commit_pending st Hp) as (l & Hl & Hw).
  eexists. split; [exact Hw|]. split; [|split; [|split]].
  - cbn [commit_headers with_res est_length]. by rewrite est_length_settle.
  - intros Hcl He. rewrite (eligible_outcome X cfg req st He).
    unfold below_threshold, js_lt. rewrite Hcl, Hlen. reflexivity.
  - intros Hs. unfold res_write. rewrite Hw. cbn [mbind Completion_bind].
    by rewrite Hs.
  - intros buf Hs Hb. unfold res_write. rewrite Hw. cbn [mbind Completion_bind].
    destruct (stream _); [|done]. by rewrite Hb.
Qed.

(** C9, as the code has it.  When the Content-Length header holds a truthy
    value at the time [end] is called, no estimate is made: [length] stays
    undefined, the call commits exactly as [writeHead] alone would, so
    whatever the chunk, and for an otherwise eligible exchange compression
    is skipped exactly when the header's number is below the threshold. *)
Theorem truthy_content_length_decides (st : Exchange) (chunk encoding : jsval) :
  pending st = true →
  truthy (getHeader (res st) "Content-Length") = true →
  ∃ st', end_commit X cfg req chunk encoding st = Normal st'
    ∧ est_length st' = VUndef
    ∧ writeHead X cfg req st = Normal st'
    ∧ (eligible X cfg req st = true →
       stream st'
       = if num_lt (ToNumber X (getHeader (res st) "Content-Length"))
              (ToNumber X (threshold cfg))
         then None
         else Some (codec_of (negotiate X req))).
Proof.
  intros Hp Hcl. destruct (pending_inv st Hp) as (Hf & Hs & Hlen & Hstr & l & Hl).
  assert (Hw : writeHead X cfg req st
               = Normal (commit_headers
                   (settle X (decide_outcome X cfg req st) l (with_fired true st))))
    by by apply writeHead_first.
  eexists. split; [|split; [|split; [exact Hw|]]].
  - unfold end_commit. rewrite Hs, Hcl. cbn [negb]. exact Hw.
  - cbn [commit_headers with_res est_length]. by rewrite est_length_settle.
  - intros He. rewrite (eligible_outcome X cfg req st He).
    unfold below_threshold, js_lt. rewrite Hlen. cbn [ToNumber num_lt].
    rewrite orb_false_r.
    destruct (num_lt _ _); [exact Hstr | reflexivity].
Qed.

End Commit.

(** *** Worked exchanges for the header and estimate rules *)

Lemma no_content_type_no_compression_witness :
  shouldCompress Reference.node get_gzip (res (install bare)) = false
  ∧ ∃ st' l, listeners (install bare) = Some l
      ∧ writeHead Reference.node default_config get_gzip (install bare) = Normal st'
      ∧ stream st' = None
      ∧ listeners st' = None
      ∧ headers (res st') = headers (res (install bare))
      ∧ trace st' = trace (install bare) ++ replay TOn l.
Proof.
  apply (no_content_type_no_compression Reference.node default_config get_gzip
           (install bare)); reflexivity.
Defined.

Lemma vary_set_once_filter_accepts_witness :
  ∃ st', writeHead Reference.node default_config get_gzip (install html) = Normal st'
    ∧ (filter default_config get_gzip (res (install html)) = true →
       getHeader (res st') "Vary"
       = vary_append Reference.node (getHeader (res (install html)) "Vary") "Accept-Encoding")
    ∧ (filter default_config get_gzip (res (install html)) = false →
       headers (res st') = headers (res (install html))).
Proof.
  apply (vary_set_once_filter_accepts Reference.node default_config get_gzip
           (install html)); reflexivity.
Defined.

(** C7 fails when the filter rejects: a response with no Content-Type goes
    through the Decision Point of the default middleware and comes out
    with no Vary header, where [vary] would have stored Accept-Encoding. *)
Lemma filtered_exchange_gets_no_vary :
  filter default_config get_gzip (res (install bare)) = false
  ∧ (st' ← writeHead Reference.node default_config get_gzip (install bare);
     mret (fired st', getHeader (res st') "Vary"))
    = Normal (true, VUndef)
  ∧ vary_append Reference.node (getHeader (res (install bare)) "Vary") "Accept-Encoding"
    = VStr "Accept-Encoding".
Proof. repeat split; vm_compute; reflexivity. Qed.

Lemma write_fires_decision_without_estimate_witness :
  ∃ st', write_commit Reference.node default_config get_gzip (install html) = Normal st'
    ∧ est_length st' = VUndef
    ∧ (getHeader (res (install html)) "Content-Length" = VUndef →
       eligible Reference.node default_config get_gzip (install html) = true →
       stream st' = Some (codec_of (negotiate Reference.node get_gzip)))
    ∧ (stream st' = None →
       res_write Reference.node default_config get_gzip (VStr "a") VUndef (install html)
       = Normal (RTransport, emit [TWrite (VStr "a") VUndef] st'))
    ∧ (∀ buf, stream st' ≠ None →
       new_Buffer Reference.node (VStr "a") VUndef = Normal buf →
       res_write Reference.node default_config get_gzip (VStr "a") VUndef (install html)
       = Normal (RStream, emit [SWrite buf] st')).
Proof.
  apply (write_fires_decision_without_estimate Reference.node default_config get_gzip
           (install html) (VStr "a") VUndef); reflexivity.
Defined.

(** C2 fails: one byte written before the headers are committed, no
    Content-Length, threshold 1024.  The chunk measures 1, yet the length
    the Decision Point compares is still undefined, the threshold test is
    false, and the byte goes to a gzip stream. *)
Lemma written_chunk_is_not_measured :
  chunkLength Reference.node (VStr "a") VUndef = VNum (Num 1)
  ∧ (st' ← write_commit Reference.node default_config get_gzip (install html);
     mret (est_length st', below_threshold Reference.node default_config st'))
    = Normal (VUndef, false)
  ∧ (p ← res_write Reference.node default_config get_gzip (VStr "a") VUndef (install html);
     mret (stream p.2, getHeader (res p.2) "Content-Encoding", trace p.2))
    = Normal (Some Gzip, VStr "gzip",
              [SOn "data" RelayData; SOn "end" RelayEnd; TOn "drain" RelayResume;
               SWrite [Byte.x61]]).
Proof. repeat split; vm_compute; reflexivity. Qed.

Lemma truthy_content_length_decides_witness :
  ∃ st',
    end_commit Reference.node default_config get_gzip (VStr "abc") VUndef
      (install (html_with_length (VStr "2048"))) = Normal st'
    ∧ est_length st' = VUndef
    ∧ writeHead Reference.node default_config get_gzip
        (install (html_with_length (VStr "2048"))) = Normal st'
    ∧ (eligible Reference.node default_config get_gzip
         (install (html_with_length (VStr "2048"))) = true →
       stream st'
       = if num_lt
              (ToNumber Reference.node
                 (getHeader (res (install (html_with_length (VStr "2048")))) "Content-Length"))
              (ToNumber Reference.node (threshold default_config))
         then None
         else Some (codec_of (negotiate Reference.node get_gzip))).
Proof.
  apply (truthy_content_length_decides Reference.node default_config get_gzip
           (install (html_with_length (VStr "2048"))) (VStr "abc") VUndef); reflexivity.
Defined.

(** C9 fails for a header that is set but falsy: with Content-Length set
    to the number 0, [end("abc")] does estimate the length from the chunk,
    and [length] is 3 at the Decision Point. *)
Lemma zero_content_length_is_estimated_over :
  getHeader (res (install (html_with_length (VNum (Num 0))))) "Content-Length" = VNum (Num 0)
  ∧ (st' ← end_commit Reference.node default_config get_gzip (VStr "abc") VUndef
             (install (html_with_length (VNum (Num 0))));
     mret (est_length st'))
    = Normal (VNum (Num 3)).
Proof. split; vm_compute; reflexivity. Qed.

(** C4.  [chunkLength] of a missing chunk is [undefined], not 0 (an empty
    Buffer does measure 0): an eligible exchange ended by [end()] with no
    chunk, default threshold 1024 and no Content-Length, reaches the
    Decision Point with no estimate, passes the threshold test, and is
    compressed with gzip. *)
Theorem end_without_chunk_is_compressed :
  (∀ X encoding, chunkLength X VUndef encoding = VUndef)
  ∧ (∀ X encoding, chunkLength X (VBuf []) encoding = VNum (Num 0))
  ∧ (st' ← end_commit Reference.node default_config get_gzip VUndef VUndef (install html);
     mret (est_length st', below_threshold Reference.node default_config st',
           stream st', getHeader (res st') "Content-Encoding"))
    = Normal (VUndef, false, Some Gzip, VStr "gzip")
  ∧ (p ← res_end Reference.node default_config get_gzip VUndef VUndef (install html);
     mret (trace p.2))
    = Normal [SOn "data" RelayData; SOn "end" RelayEnd; TOn "drain" RelayResume; SEnd None].
Proof. repeat split; vm_compute; reflexivity. Qed.

(** ** Construction and negotiation *)

Section Construction.

Variable X : Collaborators.

(** C3, as the code has it.  [compression(options)] checks nothing of its
    own: whatever [bytes.parse] returns for the threshold option becomes
    the threshold, 1024 standing in for [null] and [undefined], and the
    call throws exactly when [bytes.parse] does. *)
Theorem compression_takes_what_parse_returns (options : option Options) :
  (∀ v, bytes_parse X (opt_threshold (default no_options options)) = Normal v →
     ∃ c, compression X options = Normal c
       ∧ threshold c = (if loose_eq_null v then VNum (Num 1024) else v)
       ∧ filter c = default (shouldCompress X) (opt_filter (default no_options options)))
  ∧ (∀ e, compression X options = Throw e
          ↔ bytes_parse X (opt_threshold (default no_options options)) = Throw e).
Proof.
  unfold compression. split.
  - intros v ->. eexists. by repeat split.
  - intros e. destruct (bytes_parse X _); unfold mbind, Completion_bind, mret, Completion_ret;
      split; congruence.
Qed.

Variable req : Request.

(** C5, as the code has it.  Provided negotiation only ever answers one of
    the candidates it is offered (or [false]): when gzip alone is
    acceptable to the requester, the negotiated method is never deflate;
    it is the outcome of negotiating over gzip and identity when the plain
    negotiation selects deflate, hence gzip, identity or nothing, and the
    plain outcome otherwise. *)
Theorem negotiate_avoids_deflate :
  (∀ l, accepts_encoding X req l = VBool false
        ∨ ∃ c, c ∈ l ∧ accepts_encoding X req l = VStr c) →
  truthy (accepts_encoding X req ["gzip"]) = true →
  negotiate X req ≠ VStr "deflate"
  ∧ (accepts_encoding X req ["gzip"; "deflate"; "identity"] = VStr "deflate" →
     negotiate X req = accepts_encoding X req ["gzip"; "identity"]
     ∧ (negotiate X req = VStr "gzip" ∨ negotiate X req = VStr "identity"
        ∨ negotiate X req = VBool false))
  ∧ (accepts_encoding X req ["gzip"; "deflate"; "identity"] ≠ VStr "deflate" →
     negotiate X req = accepts_encoding X req ["gzip"; "deflate"; "identity"]).
Proof.
  intros Hcand Hgzip.
  assert (Hgi : accepts_encoding X req ["gzip"; "identity"] = VStr "gzip"
                ∨ accepts_encoding X req ["gzip"; "identity"] = VStr "identity"
                ∨ accepts_encoding X req ["gzip"; "identity"] = VBool false).
  { destruct (Hcand ["gzip"; "identity"]) as [-> | (c & Hc & ->)]; [by auto|].
    apply elem_of_cons in Hc as [-> | Hc]; [by auto|].
    apply elem_of_cons in Hc as [-> | Hc]; [by auto|].
    by apply elem_of_nil in Hc. }
  unfold negotiate. rewrite Hgzip, andb_true_r.
  destruct (accepts_encoding X req ["gzip"; "deflate"; "identity"]) as [| |b|[|k]|s|b] eqn:Hplain;
    cbn [strict_eq]; try (repeat split; [done | congruence | done]).
  destruct (String.eqb s "deflate") eqn:Hs.
  - apply String.eqb_eq in Hs as ->. split; [|split].
    + destruct Hgi as [-> | [-> | ->]]; done.
    + intros _. split; [reflexivity | exact Hgi].
    + intros Hne. by destruct Hne.
  - apply String.eqb_neq in Hs. split; [|split].
    + congruence.
    + intros [= ->]. by destruct Hs.
    + reflexivity.
Qed.

End Construction.

(** The reference negotiation answers one of the candidates, or [false]. *)
Lemma preferred_candidate (specs : list (string * N)) (provided : list string)
    (L : list string) :
  ∀ (i : nat) (best : option (string * Reference.Priority)),
    (∀ c p, best = Some (c, p) → c ∈ L) →
    (∀ c, c ∈ provided → c ∈ L) →
    ∀ c p, Reference.preferred specs i provided best = Some (c, p) → c ∈ L.
Proof.
  induction provided as [|d rest IH]; intros i best Hbest Hsub c p; cbn.
  - apply Hbest.
  - apply IH.
    + intros c' p'.
      destruct (Reference.getEncodingPriority d i 0 specs None) as [q|]; [|by apply Hbest].
      destruct (Reference.p_q q =? 0)%N; [by apply Hbest|].
      destruct best as [[b pb]|].
      * destruct (Reference.sorts_before q pb); [|by apply Hbest].
        intros [= <- _]. apply Hsub. by left.
      * intros [= <- _]. apply Hsub. by left.
    + intros c' Hc'. apply Hsub. by right.
Qed.

Lemma accepts_encoding_candidate (req : Request) (l : list string) :
  accepts_encoding Reference.node req l = VBool false
  ∨ ∃ c, c ∈ l ∧ accepts_encoding Reference.node req l = VStr c.
Proof.
  cbn. unfold Reference.accepts_encoding.
  destruct (Reference.preferred _ 0 l None) as [[c p]|] eqn:Hp; [|by left].
  right. exists c. split; [|done].
  by eapply (preferred_candidate _ l l 0 None); [done | done | exact Hp].
Qed.

Lemma negotiate_avoids_deflate_witness :
  negotiate Reference.node get_deflate_gzip ≠ VStr "deflate"
  ∧ (accepts_encoding Reference.node get_deflate_gzip ["gzip"; "deflate"; "identity"]
     = VStr "deflate" →
     negotiate Reference.node get_deflate_gzip
     = accepts_encoding Reference.node get_deflate_gzip ["gzip"; "identity"]
     ∧ (negotiate Reference.node get_deflate_gzip = VStr "gzip"
        ∨ negotiate Reference.node get_deflate_gzip = VStr "identity"
        ∨ negotiate Reference.node get_deflate_gzip = VBool false))
  ∧ (accepts_encoding Reference.node get_deflate_gzip ["gzip"; "deflate"; "identity"]
     ≠ VStr "deflate" →
     negotiate Reference.node get_deflate_gzip
     = accepts_encoding Reference.node get_deflate_gzip ["gzip"; "deflate"; "identity"]).
Proof.
  apply (negotiate_avoids_deflate Reference.node get_deflate_gzip).
  - apply accepts_encoding_candidate.
  - reflexivity.
Defined.

Lemma compression_takes_what_parse_returns_witness :
  (∀ v, bytes_parse Reference.node (opt_threshold (default no_options None)) = Normal v →
     ∃ c, compression Reference.node None = Normal c
       ∧ threshold c = (if loose_eq_null v then VNum (Num 1024) else v)
       ∧ filter c = default (shouldCompress Reference.node)
                      (opt_filter (default no_options None)))
  ∧ (∀ e, compression Reference.node None = Throw e
          ↔ bytes_parse Reference.node (opt_threshold (default no_options None)) = Throw e).
Proof. exact (compression_takes_what_parse_returns Reference.node None). Defined.

(** C3 fails: with the reference [bytes.parse], which hands a number back
    as it is, a threshold of -1 is accepted and kept. *)
Lemma negative_threshold_is_accepted :
  (c ← compression Reference.node
         (Some {| opt_filter := None; opt_threshold := VNum (Num (-1)) |});
   mret (threshold c))
  = Normal (VNum (Num (-1))).
Proof. vm_compute. reflexivity. Qed.

(** C5 fails: [Accept-Encoding: deflate, identity, gzip] weighs the three
    codings equally; plain negotiation selects deflate, gzip is
    acceptable, and the method the Decision Point ends up with is
    identity, not gzip. *)
Lemma equal_weights_can_negotiate_identity :
  accepts_encoding Reference.node get_deflate_identity_gzip ["gzip"; "deflate"; "identity"]
  = VStr "deflate"
  ∧ accepts_encoding Reference.node get_deflate_identity_gzip ["gzip"] = VStr "gzip"
  ∧ accepts_encoding Reference.node get_deflate_identity_gzip ["deflate"] = VStr "deflate"
  ∧ negotiate Reference.node get_deflate_identity_gzip = VStr "identity".
Proof. repeat split; vm_compute; reflexivity. Qed.

(** ** After the connection has closed *)

Section Closed.

Variable X : Collaborators.
Variable cfg : Config.
Variable req : Request.

(** With [listeners] null the listener throws on [listeners.length]. *)
Lemma onHeadersListener_null (st : Exchange) :
  listeners st = None → onHeadersListener X cfg req st = Throw TypeError.
Proof.
  intros Hl. unfold onHeadersListener, nocompress, addListeners.
  cbn [listeners with_res with_stream]. rewrite Hl.
  repeat match goal with |- context [if ?c then _ else _] => destruct c end;
    reflexivity.
Qed.

Lemma closed_settle (o : Outcome) (l : list (string * Handler)) (st : Exchange) :
  closed (settle X o l st) ↔ closed st.
Proof. by destruct o. Qed.

Lemma writeHead_closed (st st' : Exchange) :
  closed st → writeHead X cfg req st = Normal st' → closed st'.
Proof.
  intros Hc. unfold writeHead. destruct (fired st).
  - unfold mbind, Completion_bind, mret, Completion_ret. intros [= <-]. exact Hc.
  - destruct (listeners st) as [l|] eqn:Hl.
    + rewrite (onHeadersListener_settle X cfg req _ l) by done.
      unfold mbind, Completion_bind, mret, Completion_ret.
      intros [= <-]. unfold commit_headers.
      change (closed (settle X (decide_outcome X cfg req (with_fired true st)) l
                        (with_fired true st))).
      by apply closed_settle.
    + by rewrite onHeadersListener_null.
Qed.

Lemma step_closed (op : Op) (st st' : Exchange) (r : Ret) :
  closed st → step X cfg req op st = Normal (r, st') → closed st'.
Proof.
  intros Hc. destruct op; cbn [step].
  - unfold call_write. rewrite (proj1 Hc). completion; by intros [= _ <-].
  - unfold call_end. rewrite (proj2 Hc). completion; by intros [= _ <-].
  - completion. intros [= Hr].
    assert (st' = (res_on type listener st).2) as -> by by rewrite Hr.
    unfold res_on. destruct (listeners st); [|exact Hc].
    destruct (negb (String.eqb type "drain")); [exact Hc|].
    destruct (stream st); exact Hc.
  - completion. intros [= Hr].
    assert (st' = (call_flush st).2) as -> by by rewrite Hr.
    unfold call_flush. destruct (flush_slot st); exact Hc.
  - destruct (header_sent (res st)); [done|]. completion; by intros [= _ <-].
  - destruct (writeHead X cfg req st) as [st1|e] eqn:Hw; [|done].
    completion. intros [= _ <-]. by eapply writeHead_closed.
  - completion; by intros [= _ <-].
Qed.

Lemma run_closed (ops : list Op) :
  ∀ (st st' : Exchange) (rets : list Ret),
    closed st → run X cfg req ops st = Normal (rets, st') → closed st'.
Proof.
  induction ops as [|op rest IH]; intros st st' rets Hc; cbn [run]; completion.
  - by intros [= _ <-].
  - destruct (step X cfg req op st) as [[r st1]|e] eqn:Hs; [|done].
    cbn [snd]. destruct (run X cfg req rest st1) as [[rs st2]|e] eqn:Hr; [|done].
    cbn [snd]. intros [= _ <-].
    eapply IH; [|exact Hr]. by eapply step_closed.
Qed.

(** C6.  Once the request's close event has fired, in whatever state the
    exchange was, and whatever the application has done since (any
    sequence of calls that did not throw), a [res.write] or [res.end] call
    returns [undefined] without an exception and leaves the exchange as it
    was: nothing is added to the calls made on the transport or on the
    stream. *)
Theorem write_and_end_are_noops_after_close
    (st st' : Exchange) (ops : list Op) (rets : list Ret) (chunk encoding : jsval) :
  run X cfg req ops (on_close st) = Normal (rets, st') →
  call_write X cfg req chunk encoding st' = Normal (RUndef, st')
  ∧ call_end X cfg req chunk encoding st' = Normal (RUndef, st').
Proof.
  intros Hrun.
  assert (Hc : closed st') by (by eapply run_closed; [|exact Hrun]).
  destruct Hc as [Hw He]. unfold call_write, call_end. by rewrite Hw, He.
Qed.

End Closed.

Lemma write_and_end_are_noops_after_close_witness :
  run Reference.node default_config get_gzip
    [OpOn "drain" (AppListener 1); OpWrite (VStr "late") VUndef; OpEnd VUndef VUndef; OpFlush]
    (on_close (install html))
  = Normal ([RThis; RUndef; RUndef; RUndef],
            with_listeners (Some [("drain", AppListener 1)]) (on_close (install html)))
  ∧ call_write Reference.node default_config get_gzip (VStr "more") VUndef
      (with_listeners (Some [("drain", AppListener 1)]) (on_close (install html)))
    = Normal (RUndef,
              with_listeners (Some [("drain", AppListener 1)]) (on_close (install html)))
  ∧ call_end Reference.node default_config get_gzip (VStr "more") VUndef
      (with_listeners (Some [("drain", AppListener 1)]) (on_close (install html)))
    = Normal (RUndef,
              with_listeners (Some [("drain", AppListener 1)]) (on_close (install html))).
Proof.
  split; [reflexivity|].
  apply (write_and_end_are_noops_after_close Reference.node default_config get_gzip
           (install html) _
           [OpOn "drain" (AppListener 1); OpWrite (VStr "late") VUndef;
            OpEnd VUndef VUndef; OpFlush]
           [RThis; RUndef; RUndef; RUndef]).
  reflexivity.
Defined.

(** ** Buffered drain listeners *)

Section Listeners.

Variable X : Collaborators.
Variable cfg : Config.
Variable req : Request.

Lemma res_on_pending (st : Exchange) (l0 : list (string * Handler))
    (type : string) (h : Handler) :
  stream st = None → listeners st = Some l0 →
  (res_on type h st).2
  = if String.eqb type "drain"
    then with_listeners (Some (l0 ++ [(type, h)])) st
    else emit [TOn type h] st.
Proof.
  intros Hs Hl. unfold res_on. rewrite Hl, Hs.
  by destruct (String.eqb type "drain").
Qed.

(** Before the decision, [res.on] buffers a drain listener and hands any
    other one to the original [on]. *)
Lemma subscribe_buffers (subs : list (string * Handler)) :
  ∀ (st : Exchange) (l0 : list (string * Handler)),
    stream st = None → listeners st = Some l0 →
    trace (subscribe subs st)
    = trace st ++ replay TOn (List.filter (fun p => negb (is_drain p)) subs)
    ∧ listeners (subscribe subs st) = Some (l0 ++ List.filter is_drain subs)
    ∧ stream (subscribe subs st) = None
    ∧ fired (subscribe subs st) = fired st
    ∧ res (subscribe subs st) = res st.
Proof.
  induction subs as [|[type h] rest IH]; intros st l0 Hs Hl; cbn [subscribe foldl].
  - cbn. by rewrite !app_nil_r.
  - fold (subscribe rest (res_on (type, h).1 (type, h).2 st).2).
    cbn [fst snd]. rewrite (res_on_pending st l0 type h Hs Hl).
    cbn [List.filter]. change (is_drain (type, h)) with (String.eqb type "drain").
    destruct (String.eqb type "drain") eqn:Hd; cbn [negb].
    + destruct (IH (with_listeners (Some (l0 ++ [(type, h)])) st) (l0 ++ [(type, h)]))
        as (Ht & Hl' & Hs' & Hf & Hr); [done | done |].
      rewrite Ht, Hl', Hs', Hf, Hr. by rewrite <- app_assoc.
    + destruct (IH (emit [TOn type h] st) l0) as (Ht & Hl' & Hs' & Hf & Hr); [done | done |].
      rewrite Ht, Hl', Hs', Hf, Hr. cbn [emit trace replay map fst snd].
      by rewrite <- app_assoc.
Qed.

Lemma subscriptions_app (t u : list Action) :
  subscriptions (t ++ u) = subscriptions t ++ subscriptions u.
Proof. apply List.filter_app. Qed.

Lemma write_commit_decided (st : Exchange) :
  fired st = true → ∃ st1, write_commit X cfg req st = Normal st1 ∧ same_wiring st st1.
Proof.
  intros Hf. unfold write_commit.
  destruct (header_sent (res st)); cbn [negb].
  - by exists st.
  - rewrite writeHead_again by done. by eexists.
Qed.

Lemma end_commit_decided (st : Exchange) (chunk encoding : jsval) :
  fired st = true →
  ∃ st1, end_commit X cfg req chunk encoding st = Normal st1 ∧ same_wiring st st1.
Proof.
  intros Hf. unfold end_commit.
  destruct (header_sent (res st)); cbn [negb].
  - by exists st.
  - destruct (negb (truthy _)); rewrite writeHead_again by done; by eexists.
Qed.

(** After the decision an operation replays nothing: it adds its own
    subscription when it is an [on] call, and no subscription otherwise. *)
Lemma step_decided (op : Op) (st st' : Exchange) (r : Ret) :
  decided st → step X cfg req op st = Normal (r, st') →
  decided st' ∧ listeners st' = listeners st ∧ stream st' = stream st
  ∧ subscriptions (trace st')
    = subscriptions (trace st) ++ map (direct st) (ons_of [op]).
Proof.
  intros [Hf Hd] Hstep.
  assert (Hgoal : same_wiring st st' ∧ ons_of [op] = []
                  ∨ (∃ a, is_subscription a = false ∧ fired st' = true
                        ∧ listeners st' = listeners st ∧ stream st' = stream st
                        ∧ trace st' = trace st ++ [a] ∧ ons_of [op] = [])
                  ∨ (∃ p, ons_of [op] = [p] ∧ fired st' = true
                        ∧ listeners st' = listeners st ∧ stream st' = stream st
                        ∧ trace st' = trace st ++ [direct st p])).
  { destruct op; cbn [step] in Hstep.
    - unfold call_write in Hstep. destruct (write_slot st).
      + unfold res_write in Hstep.
        destruct (write_commit_decided st Hf) as (st1 & Hw & Hf1 & Hl1 & Hs1 & Ht1).
        rewrite Hw in Hstep. completion.
        destruct (stream st1) eqn:Hst1.
        * destruct (new_Buffer X chunk encoding) as [buf|e]; [|done].
          injection Hstep as _ <-. right; left. exists (SWrite buf).
          cbn. rewrite Hf1, Hl1, Hst1, Hs1, Ht1. by repeat split.
        * injection Hstep as _ <-. right; left. exists (TWrite chunk encoding).
          cbn. rewrite Hf1, Hl1, Hst1, Hs1, Ht1. by repeat split.
      + completion. injection Hstep as _ <-. by left.
    - unfold call_end in Hstep. destruct (end_slot st).
      + unfold res_end in Hstep.
        destruct (end_commit_decided st chunk encoding Hf)
          as (st1 & Hw & Hf1 & Hl1 & Hs1 & Ht1).
        rewrite Hw in Hstep. completion.
        destruct (stream st1) eqn:Hst1.
        * destruct (truthy chunk).
          -- destruct (new_Buffer X chunk encoding) as [buf|e]; [|done].
             injection Hstep as _ <-. right; left. exists (SEnd (Some buf)).
             cbn. rewrite Hf1, Hl1, Hst1, Hs1, Ht1. by repeat split.
          -- injection Hstep as _ <-. right; left. exists (SEnd None).
             cbn. rewrite Hf1, Hl1, Hst1, Hs1, Ht1. by repeat split.
        * injection Hstep as _ <-. right; left. exists (TEnd chunk encoding).
          cbn. rewrite Hf1, Hl1, Hst1, Hs1, Ht1. by repeat split.
      + completion. injection Hstep as _ <-. by left.
    - completion. injection Hstep as Hr.
      assert (st' = (res_on type listener st).2) as -> by by rewrite Hr.
      right; right. exists (type, listener). split; [done|].
      unfold res_on, direct, is_drain. cbn [fst snd].
      destruct (listeners st) as [l|] eqn:Hl; [|by cbn].
      destruct (String.eqb type "drain"); cbn [negb].
      * destruct (stream st) eqn:Hs; [by cbn|].
        destruct Hd as [Hd | Hd]; congruence.
      * destruct (stream st) eqn:Hs; by cbn.
    - completion. injection Hstep as Hr.
      assert (st' = (call_flush st).2) as -> by by rewrite Hr.
      unfold call_flush. destruct (flush_slot st); [by left|].
      right; left. exists SFlush. by repeat split.
    - destruct (header_sent (res st)); [done|]. completion.
      injection Hstep as _ <-. by left.
    - rewrite writeHead_again in Hstep by done. completion.
      injection Hstep as _ <-. by left.
    - completion. injection Hstep as _ <-. by left. }
  destruct Hgoal as [[(Hf' & Hl' & Hs' & Ht') ->]
                    | [(a & Ha & Hf' & Hl' & Hs' & Ht' & ->)
                      | (p & -> & Hf' & Hl' & Hs' & Ht')]].
  - unfold decided. rewrite Hf', Hl', Hs', Ht', Hf. cbn. by rewrite app_nil_r.
  - unfold decided. rewrite Hf', Hl', Hs', Ht', subscriptions_app.
    cbn. rewrite Ha. by rewrite !app_nil_r.
  - unfold decided. rewrite Hf', Hl', Hs', Ht', subscriptions_app.
    cbn. assert (Hsub : is_subscription (direct st p) = true).
    { unfold direct. destruct (listeners st), (stream st), (is_drain p); done. }
    by rewrite Hsub.
Qed.

Lemma direct_same (st st' : Exchange) (p : string * Handler) :
  listeners st' = listeners st → stream st' = stream st → direct st' p = direct st p.
Proof. intros Hl Hs. unfold direct. by rewrite Hl, Hs. Qed.

Lemma ons_of_cons (op : Op) (ops : list Op) :
  ons_of (op :: ops) = ons_of [op] ++ ons_of ops.
Proof. unfold ons_of. cbn. by destruct op. Qed.

Lemma run_decided (ops : list Op) :
  ∀ (st st' : Exchange) (rets : list Ret),
    decided st → run X cfg req ops st = Normal (rets, st') →
    subscriptions (trace st')
    = subscriptions (trace st) ++ map (direct st) (ons_of ops).
Proof.
  induction ops as [|op rest IH]; intros st st' rets Hd; cbn [run]; completion.
  - intros [= _ <-]. cbn. by rewrite app_nil_r.
  - destruct (step X cfg req op st) as [[r st1]|e] eqn:Hs; [|done].
    cbn [snd]. destruct (run X cfg req rest st1) as [[rs st2]|e] eqn:Hr; [|done].
    cbn [snd]. intros [= _ <-].
    destruct (step_decided op st st1 r Hd Hs) as (Hd1 & Hl1 & Hs1 & Ht1).
    rewrite (ons_of_cons op rest), (IH st1 st2 rs Hd1 Hr), Ht1, map_app, <- app_assoc.
    f_equal. f_equal. apply map_ext. intros p. by apply direct_same.
Qed.

(** C8.  On an exchange on which the Decision Point has not fired, with
    [l0] already buffered, let the application make the [on] calls [subs].
    Those for another event than drain are made, in order, on the original
    [on]; nothing else is.  When the headers are then committed, the
    Decision Point makes one [on] call per buffered drain listener, in
    registration order, on the target it selects: on the original [on] when
    no stream is created, on the stream (before the relay's own listeners)
    when one is.  Whatever the application does afterwards, the [on] calls
    made are those already made followed by one per later [res.on] call:
    the buffered listeners are never attached again. *)
Theorem drain_listeners_replayed_once
    (st : Exchange) (l0 subs : list (string * Handler)) :
  pending st = true →
  listeners st = Some l0 →
  trace (subscribe subs st)
  = trace st ++ replay TOn (List.filter (fun p => negb (is_drain p)) subs)
  ∧ ∃ st2, writeHead X cfg req (subscribe subs st) = Normal st2
      ∧ match stream st2 with
        | None =>
            trace st2
            = trace (subscribe subs st) ++ replay TOn (l0 ++ List.filter is_drain subs)
        | Some _ =>
            trace st2
            = trace (subscribe subs st) ++ replay SOn (l0 ++ List.filter is_drain subs)
              ++ [SOn "data" RelayData; SOn "end" RelayEnd; TOn "drain" RelayResume]
        end
      ∧ ∀ ops rets st3,
          run X cfg req ops st2 = Normal (rets, st3) →
          subscriptions (trace st3)
          = subscriptions (trace st2) ++ map (direct st2) (ons_of ops).
Proof.
  intros Hp Hl. destruct (pending_inv st Hp) as (Hf & _ & _ & Hs & _).
  destruct (subscribe_buffers subs st l0 Hs Hl) as (Ht & Hl1 & Hs1 & Hf1 & Hr1).
  split; [exact Ht|].
  eexists. split; [apply writeHead_first; [by rewrite Hf1 | exact Hl1]|].
  set (st1 := subscribe subs st) in *.
  set (o := decide_outcome X cfg req st1).
  split.
  - cbn [commit_headers with_res stream trace]. rewrite stream_settle.
    destruct o; cbn [with_fired stream]; try rewrite Hs1; try done.
    cbn. by rewrite <- app_assoc.
  - intros ops rets st3. apply run_decided. split; [by destruct o|].
    destruct o; cbn; auto.
Qed.

End Listeners.

Lemma drain_listeners_replayed_once_witness :
  trace (subscribe [("drain", AppListener 1); ("finish", AppListener 2);
                    ("drain", AppListener 3)] (install html))
  = trace (install html)
    ++ replay TOn (List.filter (fun p => negb (is_drain p))
                     [("drain", AppListener 1); ("finish", AppListener 2);
                      ("drain", AppListener 3)])
  ∧ ∃ st2, writeHead Reference.node default_config get_gzip
             (subscribe [("drain", AppListener 1); ("finish", AppListener 2);
                         ("drain", AppListener 3)] (install html)) = Normal st2
      ∧ match stream st2 with
        | None =>
            trace st2
            = trace (subscribe [("drain", AppListener 1); ("finish", AppListener 2);
                                ("drain", AppListener 3)] (install html))
              ++ replay TOn ([] ++ List.filter is_drain
                                     [("drain", AppListener 1); ("finish", AppListener 2);
                                      ("drain", AppListener 3)])
        | Some _ =>
            trace st2
            = trace (subscribe [("drain", AppListener 1); ("finish", AppListener 2);
                                ("drain", AppListener 3)] (install html))
              ++ replay SOn ([] ++ List.filter is_drain
                                     [("drain", AppListener 1); ("finish", AppListener 2);
                                      ("drain", AppListener 3)])
              ++ [SOn "data" RelayData; SOn "end" RelayEnd; TOn "drain" RelayResume]
        end
      ∧ ∀ ops rets st3,
          run Reference.node default_config get_gzip ops st2 = Normal (rets, st3) →
          subscriptions (trace st3)
          = subscriptions (trace st2) ++ map (direct st2) (ons_of ops).
Proof.
  apply (drain_listeners_replayed_once Reference.node default_config get_gzip
           (install html) []
           [("drain", AppListener 1); ("finish", AppListener 2);
            ("drain", AppListener 3)]); reflexivity.
Defined.

(** The same exchange, run: the two drain listeners reach the gzip stream
    once each, in the order they were registered. *)
Example ex_replay_on_stream :
  (st2 ← writeHead Reference.node default_config get_gzip
           (subscribe [("drain", AppListener 1); ("finish", AppListener 2);
                       ("drain", AppListener 3)] (install html));
   mret (stream st2, trace st2))
  = Normal (Some Gzip,
            [TOn "finish" (AppListener 2);
             SOn "drain" (AppListener 1); SOn "drain" (AppListener 3);
             SOn "data" RelayData; SOn "end" RelayEnd; TOn "drain" RelayResume]).
Proof. vm_compute. reflexivity. Qed.

(** And on a response the filter rejects: they reach the transport. *)
Example ex_replay_on_transport :
  (st2 ← writeHead Reference.node default_config get_gzip
           (subscribe [("drain", AppListener 1); ("finish", AppListener 2);
                       ("drain", AppListener 3)] (install bare));
   mret (stream st2, listeners st2, trace st2))
  = Normal (None, None,
            [TOn "finish" (AppListener 2);
             TOn "drain" (AppListener 1); TOn "drain" (AppListener 3)]).
Proof. vm_compute. reflexivity. Qed.

(** ** States reached from the installed middleware *)

Section Reachable.

Variable X : Collaborators.
Variable cfg : Config.
Variable req : Request.

Lemma wired_install (r : Response) :
  header_sent r = false → wired (install r).
Proof. intros Hr. unfold wired, pending; cbn. by rewrite Hr. Qed.

Lemma wired_emit (acts : list Action) (st : Exchange) :
  fired st = true → wired st → wired (emit acts st).
Proof. unfold wired; cbn. by intros ->. Qed.

(** The state the first [writeHead] leaves is wired. *)
Lemma wired_settle (o : Outcome) (l : list (string * Handler)) (st : Exchange) :
  stream st = None → listeners st = Some l → flush_slot st = FlushNoop →
  wired (commit_headers (settle X o l (with_fired true st)))
  ∧ fired (commit_headers (settle X o l (with_fired true st))) = true.
Proof.
  intros Hs Hl Hfl. unfold wired.
  destruct o; cbn; rewrite ?Hs, ?Hl, ?Hfl; eauto.
Qed.

Lemma wired_fired (st : Exchange) :
  wired st → fired st = true →
  header_sent (res st) = true
  ∧ match stream st with
    | None => listeners st = None ∧ flush_slot st = FlushNoop
    | Some _ => is_Some (listeners st) ∧ flush_slot st = FlushStream
    end.
Proof. unfold wired. intros H Hf. by rewrite Hf in H. Qed.

Lemma wired_pending (st : Exchange) :
  wired st → fired st = false →
  pending st = true ∧ flush_slot st = FlushNoop
  ∧ forallb quiet_action (trace st) = true.
Proof. unfold wired. intros H Hf. by rewrite Hf in H. Qed.

Lemma writeHead_wired (st st' : Exchange) :
  wired st → writeHead X cfg req st = Normal st' →
  wired st' ∧ fired st' = true.
Proof.
  intros Hw. destruct (fired st) eqn:Hf.
  - rewrite writeHead_again by done. intros [= <-].
    destruct (wired_fired st Hw Hf) as [Hh Hs].
    unfold wired; cbn. by rewrite Hf.
  - destruct (wired_pending st Hw Hf) as (Hp & Hfl & _).
    destruct (pending_inv st Hp) as (_ & _ & _ & Hs & l & Hl).
    rewrite (writeHead_first X cfg req st l) by done. intros [= <-].
    by apply wired_settle.
Qed.

Lemma write_commit_wired (st st' : Exchange) :
  wired st → write_commit X cfg req st = Normal st' →
  wired st' ∧ fired st' = true.
Proof.
  intros Hw. unfold write_commit.
  destruct (header_sent (res st)) eqn:Hh; cbn [negb].
  - completion. intros [= <-]. split; [done|].
    destruct (fired st) eqn:Hf; [done|].
    destruct (wired_pending st Hw Hf) as (Hp & _).
    destruct (pending_inv st Hp) as (_ & Hh' & _). congruence.
  - by apply writeHead_wired.
Qed.

Lemma end_commit_wired (st st' : Exchange) (chunk encoding : jsval) :
  wired st → end_commit X cfg req chunk encoding st = Normal st' →
  wired st' ∧ fired st' = true.
Proof.
  intros Hw. unfold end_commit.
  destruct (header_sent (res st)) eqn:Hh; cbn [negb].
  - completion. intros [= <-]. split; [done|].
    destruct (fired st) eqn:Hf; [done|].
    destruct (wired_pending st Hw Hf) as (Hp & _).
    destruct (pending_inv st Hp) as (_ & Hh' & _). congruence.
  - destruct (fired st) eqn:Hf.
    { destruct (wired_fired st Hw Hf) as [Hh' _]. congruence. }
    destruct (wired_pending st Hw Hf) as (Hp & Hfl & _).
    destruct (pending_inv st Hp) as (_ & _ & _ & Hs & l & Hl).
    destruct (negb (truthy _));
      rewrite (writeHead_first X cfg req _ l) by done; intros [= <-];
      by apply wired_settle.
Qed.

(** Every operation keeps the exchange wired. *)
Lemma step_wired (op : Op) (st st' : Exchange) (r : Ret) :
  wired st → step X cfg req op st = Normal (r, st') → wired st'.
Proof.
  intros Hw. destruct op; cbn [step].
  - unfold call_write. destruct (write_slot st); [|completion; by intros [= _ <-]].
    unfold res_write.
    destruct (write_commit X cfg req st) as [st1|e] eqn:Hc; [|done].
    destruct (write_commit_wired st st1 Hw Hc) as [Hw1 Hf1].
    completion. destruct (stream st1).
    + destruct (new_Buffer X chunk encoding); [|done].
      intros [= _ <-]. by apply wired_emit.
    + intros [= _ <-]. by apply wired_emit.
  - unfold call_end. destruct (end_slot st); [|completion; by intros [= _ <-]].
    unfold res_end.
    destruct (end_commit X cfg req chunk encoding st) as [st1|e] eqn:Hc; [|done].
    destruct (end_commit_wired st st1 chunk encoding Hw Hc) as [Hw1 Hf1].
    completion. destruct (stream st1).
    + destruct (truthy chunk).
      * destruct (new_Buffer X chunk encoding); [|done].
        intros [= _ <-]. by apply wired_emit.
      * intros [= _ <-]. by apply wired_emit.
    + intros [= _ <-]. by apply wired_emit.
  - completion. intros [= Hr].
    assert (st' = (res_on type listener st).2) as -> by by rewrite Hr.
    unfold res_on. destruct (fired st) eqn:Hf.
    + destruct (wired_fired st Hw Hf) as [Hh Hs].
      destruct (stream st) eqn:Hst.
      * destruct Hs as [[l Hl] Hfl]. rewrite Hl.
        destruct (negb (String.eqb type "drain")); by apply wired_emit.
      * destruct Hs as [Hl Hfl]. rewrite Hl. by apply wired_emit.
    + destruct (wired_pending st Hw Hf) as (Hp & Hfl & Ht).
      destruct (pending_inv st Hp) as (_ & Hh & Hlen & Hs & l & Hl).
      rewrite Hl, Hs.
      destruct (String.eqb type "drain") eqn:Hd; cbn [negb snd].
      * unfold wired, pending; cbn. rewrite Hf, Hh, Hlen, Hs. by cbn.
      * unfold wired, pending; cbn. rewrite Hf, Hh, Hlen, Hs, Hl.
        cbn. rewrite forallb_app, Ht. cbn. by rewrite Hd.
  - completion. intros [= Hr].
    assert (st' = (call_flush st).2) as -> by by rewrite Hr.
    unfold call_flush. destruct (flush_slot st) eqn:Hfl; [done|].
    destruct (fired st) eqn:Hf; [by apply wired_emit|].
    destruct (wired_pending st Hw Hf) as (_ & Hfl' & _). congruence.
  - destruct (header_sent (res st)) eqn:Hh; [done|]. completion.
    intros [= _ <-]. destruct (fired st) eqn:Hf.
    + destruct (wired_fired st Hw Hf) as [Hh' _]. congruence.
    + destruct (wired_pending st Hw Hf) as (Hp & Hfl & Ht).
      destruct (pending_inv st Hp) as (_ & _ & Hlen & Hs & l & Hl).
      unfold wired, pending; cbn. rewrite Hf, Hh, Hlen, Hs, Hl. by cbn.
  - destruct (writeHead X cfg req st) as [st1|e] eqn:Hc; [|done].
    completion. intros [= _ <-]. by apply (writeHead_wired st st1).
  - completion. intros [= _ <-]. exact Hw.
Qed.

Lemma run_wired (ops : list Op) :
  ∀ (st st' : Exchange) (rets : list Ret),
    wired st → run X cfg req ops st = Normal (rets, st') → wired st'.
Proof.
  induction ops as [|op rest IH]; intros st st' rets Hw; cbn [run]; completion.
  - by intros [= _ <-].
  - destruct (step X cfg req op st) as [[r st1]|e] eqn:Hs; [|done].
    cbn [snd]. destruct (run X cfg req rest st1) as [[rs st2]|e] eqn:Hr; [|done].
    cbn [snd]. intros [= _ <-].
    eapply IH; [|exact Hr]. by eapply step_wired.
Qed.

End Reachable.

(** ** The Decision Point as a whole *)

Section Rules.

Variable X : Collaborators.
Variable cfg : Config.
Variable req : Request.

(** The listener leaves by the compression branch exactly when the
    exchange is eligible and not below the threshold. *)
Lemma decide_outcome_cases (st : Exchange) :
  (eligible X cfg req st = true ∧ below_threshold X cfg st = false
   ∧ decide_outcome X cfg req st = Compress (negotiate X req))
  ∨ ((eligible X cfg req st = false ∨ below_threshold X cfg st = true)
     ∧ ∀ method, decide_outcome X cfg req st ≠ Compress method).
Proof.
  unfold eligible, decide_outcome.
  destruct (filter cfg req (res st)); cbn [negb andb]; [|by right; split; [left|]].
  destruct (below_threshold X cfg st); [by right; split; [right|]|].
  destruct (strict_eq (VStr "identity") _); cbn [negb andb]; [|by right; split; [left|]].
  destruct (String.eqb "HEAD" (req_method req)); cbn [negb andb];
    [by right; split; [left|]|].
  destruct (truthy (negotiate X req)); cbn [negb andb orb]; [|by right; split; [left|]].
  destruct (strict_eq (negotiate X req) (VStr "identity")); cbn [negb];
    [by right; split; [left|] | by left].
Qed.

Lemma getHeader_varied (st : Exchange) (name : string) :
  lowercase name ≠ "vary" →
  getHeader (res (varied X st)) name = getHeader (res st) name.
Proof.
  intros Hn. unfold varied; cbn [res with_res].
  apply getHeader_setHeader_ne.
  change (lowercase "Vary") with "vary". congruence.
Qed.

Lemma settle_nocompress_frame (o : Outcome) (l : list (string * Handler))
    (st : Exchange) (name : string) :
  (∀ method, o ≠ Compress method) → lowercase name ≠ "vary" →
  getHeader (res (settle X o l st)) name = getHeader (res st) name.
Proof.
  intros Ho Hn. rewrite res_settle.
  destruct o; try done; try by apply getHeader_varied.
  by destruct (Ho method).
Qed.

Lemma settle_compress_frame (method : jsval) (l : list (string * Handler))
    (st : Exchange) (name : string) :
  lowercase name ≠ "vary" → lowercase name ≠ "content-encoding" →
  lowercase name ≠ "content-length" →
  getHeader (res (settle X (Compress method) l st)) name = getHeader (res st) name.
Proof.
  intros Hv He Hl. rewrite res_settle.
  rewrite getHeader_removeHeader_ne
    by (change (lowercase "Content-Length") with "content-length"; congruence).
  rewrite getHeader_setHeader_ne
    by (change (lowercase "Content-Encoding") with "content-encoding"; congruence).
  by apply getHeader_varied.
Qed.

(** X1.  Compression is applied exactly when every rule passes.  On an
    exchange on which the Decision Point has not fired, committing the
    headers creates a stream if and only if the exchange is eligible and
    not below the threshold.  With a stream, it is the one of the
    negotiated method, Content-Encoding names that method and
    Content-Length is gone; without one, Content-Encoding and
    Content-Length are as they were. *)
Theorem compression_iff_every_rule_passes (st : Exchange) :
  pending st = true →
  ∃ st', writeHead X cfg req st = Normal st'
    ∧ (stream st' ≠ None
       ↔ eligible X cfg req st = true ∧ below_threshold X cfg st = false)
    ∧ (stream st' ≠ None →
       stream st' = Some (codec_of (negotiate X req))
       ∧ getHeader (res st') "Content-Encoding" = negotiate X req
       ∧ getHeader (res st') "Content-Length" = VUndef)
    ∧ (stream st' = None →
       getHeader (res st') "Content-Encoding" = getHeader (res st) "Content-Encoding"
       ∧ getHeader (res st') "Content-Length" = getHeader (res st) "Content-Length").
Proof.
  intros Hp. destruct (pending_inv st Hp) as (Hf & _ & _ & Hs & l & Hl).
  eexists. split; [by apply writeHead_first|].
  cbn [commit_headers with_res stream]. rewrite stream_settle.
  destruct (decide_outcome_cases st) as [(He & Hb & Ho) | [Hne Ho]].
  - rewrite Ho. split; [|split].
    + split; [done | by intros _].
    + intros _. split; [reflexivity|].
      rewrite !getHeader_commit_headers, !res_settle. split.
      * rewrite getHeader_removeHeader_ne by done. apply getHeader_setHeader_eq.
      * apply getHeader_removeHeader_eq.
    + done.
  - assert (Hst : match decide_outcome X cfg req st with
                  | Compress method => Some (codec_of method)
                  | _ => stream (with_fired true st)
                  end = None).
    { destruct (decide_outcome X cfg req st) eqn:Hd; try exact Hs.
      by destruct (Ho method). }
    rewrite Hst. split; [|split].
    + split; [done|]. intros [He Hb]. destruct Hne; congruence.
    + done.
    + intros _. rewrite !getHeader_commit_headers.
      rewrite !settle_nocompress_frame by done. done.
Qed.

(** X2.  The Decision Point touches three headers at most.  Whatever it
    decides, every header other than Vary, Content-Encoding and
    Content-Length reads after it as it did before. *)
Theorem decision_leaves_other_headers (st : Exchange) (name : string) :
  pending st = true →
  lowercase name ≠ "vary" →
  lowercase name ≠ "content-encoding" →
  lowercase name ≠ "content-length" →
  ∃ st', writeHead X cfg req st = Normal st'
    ∧ getHeader (res st') name = getHeader (res st) name.
Proof.
  intros Hp Hv He Hl. destruct (pending_inv st Hp) as (Hf & _ & _ & Hs & l & Hl').
  eexists. split; [by apply writeHead_first|].
  rewrite getHeader_commit_headers.
  destruct (decide_outcome X cfg req st) eqn:Ho;
    try (by rewrite settle_nocompress_frame).
  by rewrite settle_compress_frame.
Qed.

(** A rule that fails, or a length below the threshold, keeps the
    transport: no stream, Content-Encoding and Content-Length untouched. *)
Lemma rule_failed_passthrough (st : Exchange) :
  pending st = true →
  eligible X cfg req st = false ∨ below_threshold X cfg st = true →
  ∃ st', writeHead X cfg req st = Normal st'
    ∧ stream st' = None
    ∧ flush_slot st' = flush_slot st
    ∧ getHeader (res st') "Content-Encoding" = getHeader (res st) "Content-Encoding"
    ∧ getHeader (res st') "Content-Length" = getHeader (res st) "Content-Length".
Proof.
  intros Hp Hfail. destruct (pending_inv st Hp) as (Hf & _ & _ & Hs & l & Hl).
  eexists. split; [by apply writeHead_first|].
  destruct (decide_outcome_cases st) as [(He & Hb & _) | [_ Ho]].
  { destruct Hfail; congruence. }
  rewrite !getHeader_commit_headers, !settle_nocompress_frame by done.
  destruct (decide_outcome X cfg req st) eqn:Hd; try by repeat split.
  by destruct (Ho method).
Qed.

(** X3.  A response that already declares a content coding is never encoded
    again.  When Content-Encoding holds a truthy value other than the
    string identity before the headers are committed, no stream is
    created, [flush] stays what it was, and Content-Encoding and
    Content-Length are left as the application set them. *)
Theorem declared_encoding_is_kept (st : Exchange) :
  pending st = true →
  truthy (getHeader (res st) "Content-Encoding") = true →
  strict_eq (VStr "identity") (getHeader (res st) "Content-Encoding") = false →
  ∃ st', writeHead X cfg req st = Normal st'
    ∧ stream st' = None
    ∧ flush_slot st' = flush_slot st
    ∧ getHeader (res st') "Content-Encoding" = getHeader (res st) "Content-Encoding"
    ∧ getHeader (res st') "Content-Length" = getHeader (res st) "Content-Length".
Proof.
  intros Hp Ht Hne. apply rule_failed_passthrough; [exact Hp|]. left.
  unfold eligible, js_or. rewrite Ht, Hne.
  by destruct (filter cfg req (res st)).
Qed.

(** X4.  A HEAD request is never compressed: whatever the response and the
    Accept-Encoding of the request, no stream is created and
    Content-Encoding and Content-Length are left as they were. *)
Theorem head_request_is_not_compressed (st : Exchange) :
  pending st = true →
  req_method req = "HEAD" →
  ∃ st', writeHead X cfg req st = Normal st'
    ∧ stream st' = None
    ∧ flush_slot st' = flush_slot st
    ∧ getHeader (res st') "Content-Encoding" = getHeader (res st) "Content-Encoding"
    ∧ getHeader (res st') "Content-Length" = getHeader (res st) "Content-Length".
Proof.
  intros Hp Hm. apply rule_failed_passthrough; [exact Hp|]. left.
  unfold eligible. rewrite Hm. cbn [String.eqb Ascii.eqb Bool.eqb negb].
  by rewrite !andb_false_r.
Qed.

(** X5.  The codec is the one the header names.  When negotiation only
    answers a candidate it was offered (or [false]) and a stream is
    created, either it is a gzip stream and Content-Encoding is gzip, or
    it is a deflate stream, Content-Encoding is deflate, and gzip alone was
    not acceptable to the requester. *)
Theorem codec_matches_content_encoding (st : Exchange) :
  (∀ l, accepts_encoding X req l = VBool false
        ∨ ∃ c, c ∈ l ∧ accepts_encoding X req l = VStr c) →
  pending st = true →
  ∃ st', writeHead X cfg req st = Normal st'
    ∧ (stream st' = None
       ∨ (stream st' = Some Gzip
          ∧ getHeader (res st') "Content-Encoding" = VStr "gzip")
       ∨ (stream st' = Some Deflate
          ∧ getHeader (res st') "Content-Encoding" = VStr "deflate"
          ∧ truthy (accepts_encoding X req ["gzip"]) = false)).
Proof.
  intros Hcand Hp. destruct (pending_inv st Hp) as (Hf & _ & _ & Hs & l & Hl).
  eexists. split; [by apply writeHead_first|].
  cbn [commit_headers with_res stream]. rewrite stream_settle.
  destruct (decide_outcome_cases st) as [(He & Hb & Ho) | [_ Ho]].
  2: { left. destruct (decide_outcome X cfg req st) eqn:Hd; try exact Hs.
       by destruct (Ho method). }
  rewrite Ho. right.
  assert (Hce : getHeader (res (commit_headers
                  (settle X (Compress (negotiate X req)) l (with_fired true st))))
                  "Content-Encoding" = negotiate X req).
  { rewrite getHeader_commit_headers, res_settle.
    rewrite getHeader_removeHeader_ne by done. apply getHeader_setHeader_eq. }
  rewrite Hce.
  unfold eligible in He. repeat (apply andb_prop in He as [He ?]).
  assert (Hid : strict_eq (negotiate X req) (VStr "identity") = false)
    by by destruct (strict_eq (negotiate X req) (VStr "identity")).
  assert (Htr : truthy (negotiate X req) = true) by done.
  clear - Hcand Hid Htr.
  unfold negotiate in *.
  destruct (Hcand ["gzip"; "deflate"; "identity"]) as [Hp3 | (c & Hc & Hp3)];
    rewrite Hp3 in *; cbn [strict_eq andb] in *; [done|].
  destruct (Hcand ["gzip"; "identity"]) as [Hp2 | (d & Hd & Hp2)].
  - rewrite Hp2 in *. repeat (apply elem_of_cons in Hc as [-> | Hc]);
      [ | | | by apply elem_of_nil in Hc]; cbn in *.
    + by left.
    + destruct (truthy (accepts_encoding X req ["gzip"])) eqn:Hg; [done|].
      by right.
    + done.
  - rewrite Hp2 in *.
    repeat (apply elem_of_cons in Hc as [-> | Hc]);
      [ | | | by apply elem_of_nil in Hc]; cbn in *.
    + by left.
    + destruct (truthy (accepts_encoding X req ["gzip"])) eqn:Hg.
      * repeat (apply elem_of_cons in Hd as [-> | Hd]);
          [ | | by apply elem_of_nil in Hd]; cbn in *; [by left | done].
      * by right.
    + done.
Qed.

End Rules.

(** ** The threshold rule, beyond the boundary *)

Section Lengths.

Variable X : Collaborators.
Variable cfg : Config.
Variable req : Request.

Lemma num_lt_NaN (a : jsnum) : num_lt a NaN = false.
Proof. by destruct a. Qed.

(** With the length known at [end], the test of line 131 is [L < T]. *)
Lemma below_threshold_known (st st0 : Exchange) (chunk encoding : jsval) (T L : Z) :
  res st0 = res st →
  est_length st0
  = (if truthy (getHeader (res st) "Content-Length") then VUndef
     else chunkLength X chunk encoding) →
  ToNumber X (threshold cfg) = Num T →
  known_length X st chunk encoding = Some L →
  below_threshold X cfg st0 = (L <? T).
Proof.
  intros Hres Hlen HT Hk.
  unfold below_threshold, js_lt. rewrite Hres, Hlen, HT.
  unfold known_length in Hk.
  destruct (getHeader (res st) "Content-Length") as [| |b|n|s|b] eqn:Hh;
    try (match type of Hk with
         | context [ToNumber X ?h] =>
             exact (header_known_below X h chunk encoding L T Hk)
         end).
  cbn [truthy ToNumber num_lt orb].
  destruct (chunkLength X chunk encoding) as [| | |[|k]| |]; try discriminate Hk.
  injection Hk as ->. reflexivity.
Qed.

Lemma stream_after_decision (st0 : Exchange) (l : list (string * Handler)) :
  stream st0 = None → eligible X cfg req st0 = true →
  stream (commit_headers (settle X (decide_outcome X cfg req st0) l (with_fired true st0)))
  = if below_threshold X cfg st0 then None else Some (codec_of (negotiate X req)).
Proof.
  intros Hs He. cbn [commit_headers with_res stream].
  rewrite stream_settle, (eligible_outcome X cfg req st0 He).
  by destruct (below_threshold X cfg st0).
Qed.

Lemma eligible_same_res (st st0 : Exchange) :
  res st0 = res st → eligible X cfg req st0 = eligible X cfg req st.
Proof. intros Hres. unfold eligible. by rewrite Hres. Qed.

(** X6.  The threshold rule, for every length.  On an otherwise eligible
    exchange with a numeric threshold [T], an [end(chunk, encoding)] call
    at which the body length [L] is known (from the Content-Length header,
    else from the chunk) leaves the exchange uncompressed exactly when
    [L < T]; from [T] upwards it is compressed. *)
Theorem known_length_decides (st : Exchange) (chunk encoding : jsval) (T L : Z) :
  pending st = true →
  eligible X cfg req st = true →
  ToNumber X (threshold cfg) = Num T →
  known_length X st chunk encoding = Some L →
  ∃ st', end_commit X cfg req chunk encoding st = Normal st'
    ∧ (stream st' = None ↔ L < T)
    ∧ (stream st' = Some (codec_of (negotiate X req)) ↔ T ≤ L).
Proof.
  intros Hp He HT Hk.
  destruct (end_commit_pending X cfg req st chunk encoding Hp)
    as (st0 & l & -> & Hres & Hstr & _ & Hl & _ & Hlen).
  eexists; split; [reflexivity|].
  assert (He0 : eligible X cfg req st0 = true)
    by (by rewrite (eligible_same_res st st0 Hres)).
  rewrite (stream_after_decision st0 l Hstr He0).
  rewrite (below_threshold_known st st0 chunk encoding T L) by done.
  destruct (L <? T) eqn:Hlt.
  - apply Z.ltb_lt in Hlt. split; split; try done; lia.
  - apply Z.ltb_ge in Hlt. split; split; try done; lia.
Qed.

(** X7.  An [end] with nothing to measure is never below the threshold.
    When no Content-Length header is set and the chunk given to [end] is
    falsy (missing, [null], the empty string), the estimate stays
    undefined and an otherwise eligible exchange is compressed, whatever
    the threshold. *)
Theorem falsy_end_chunk_escapes_threshold (st : Exchange) (chunk encoding : jsval) :
  pending st = true →
  eligible X cfg req st = true →
  getHeader (res st) "Content-Length" = VUndef →
  truthy chunk = false →
  ∃ st', end_commit X cfg req chunk encoding st = Normal st'
    ∧ est_length st' = VUndef
    ∧ stream st' = Some (codec_of (negotiate X req)).
Proof.
  intros Hp He Hcl Hc.
  destruct (end_commit_pending X cfg req st chunk encoding Hp)
    as (st0 & l & -> & Hres & Hstr & _ & Hl & _ & Hlen).
  assert (Hlen0 : est_length st0 = VUndef).
  { rewrite Hlen, Hcl. cbn [truthy]. unfold chunkLength. by rewrite Hc. }
  eexists; split; [reflexivity|]. split.
  - cbn [commit_headers with_res est_length]. by rewrite est_length_settle.
  - assert (He0 : eligible X cfg req st0 = true)
      by (by rewrite (eligible_same_res st st0 Hres)).
    rewrite (stream_after_decision st0 l Hstr He0).
    unfold below_threshold, js_lt. rewrite Hres, Hcl, Hlen0. reflexivity.
Qed.

(** X8.  A threshold that does not read as a number switches the rule off.
    When [Number(threshold)] is NaN (what an unreadable size string can
    parse to), nothing is ever below the threshold: an otherwise eligible
    exchange is compressed whatever its Content-Length header and whatever
    chunk [end] is given. *)
Theorem unreadable_threshold_never_applies (st : Exchange) (chunk encoding : jsval) :
  pending st = true →
  eligible X cfg req st = true →
  ToNumber X (threshold cfg) = NaN →
  ∃ st', end_commit X cfg req chunk encoding st = Normal st'
    ∧ stream st' = Some (codec_of (negotiate X req)).
Proof.
  intros Hp He HT.
  destruct (end_commit_pending X cfg req st chunk encoding Hp)
    as (st0 & l & -> & Hres & Hstr & _ & Hl & _ & Hlen).
  eexists; split; [reflexivity|].
  assert (He0 : eligible X cfg req st0 = true)
    by (by rewrite (eligible_same_res st st0 Hres)).
  rewrite (stream_after_decision st0 l Hstr He0).
  unfold below_threshold, js_lt. by rewrite HT, !num_lt_NaN.
Qed.

End Lengths.

(** ** Chunks in order *)

Section Flow.

Variable X : Collaborators.
Variable cfg : Config.
Variable req : Request.

Lemma emit_nil (st : Exchange) : emit [] st = st.
Proof. destruct st. unfold emit; cbn. by rewrite app_nil_r. Qed.

Lemma emit_emit (a b : list Action) (st : Exchange) :
  emit b (emit a st) = emit (a ++ b) st.
Proof. unfold emit; cbn. by rewrite app_assoc. Qed.

Lemma run_app (a b : list Op) :
  ∀ st, run X cfg req (a ++ b) st
        = (p ← run X cfg req a st;
           q ← run X cfg req b p.2;
           mret (p.1 ++ q.1, q.2)).
Proof.
  induction a as [|op a IH]; intros st; cbn [run app]; completion.
  - cbn [snd fst app]. by destruct (run X cfg req b st) as [[rs st']|e].
  - destruct (step X cfg req op st) as [[r st1]|e]; [|done]. cbn [snd fst].
    rewrite IH. completion.
    destruct (run X cfg req a st1) as [[rs st2]|e]; [|done]. cbn [snd fst].
    by destruct (run X cfg req b st2) as [[rs' st3]|e].
Qed.

(** Once the headers are committed, a [write] goes straight to the
    transport when there is no stream. *)
Lemma run_writes_transport (chunks : list (jsval * jsval)) :
  ∀ st, header_sent (res st) = true → stream st = None → write_slot st = Proxy →
    run X cfg req (writes chunks) st
    = Normal (map (fun _ => RTransport) chunks,
              emit (map (fun c => TWrite c.1 c.2) chunks) st).
Proof.
  induction chunks as [|c cs IH]; intros st Hh Hs Hw; cbn [writes map run].
  - by rewrite emit_nil.
  - fold (writes cs). cbn [step]. unfold call_write, res_write, write_commit.
    rewrite Hw, Hh. cbn [negb]. completion. rewrite Hs. cbn [snd fst].
    rewrite IH by done. by rewrite emit_emit.
Qed.

(** And to the stream, as a Buffer, when there is one. *)
Lemma run_writes_stream (chunks : list (jsval * jsval)) :
  ∀ (bufs : list (list Byte.byte)) (st : Exchange) (k : Codec),
    Forall2 (fun c b => new_Buffer X c.1 c.2 = Normal b) chunks bufs →
    header_sent (res st) = true → stream st = Some k → write_slot st = Proxy →
    run X cfg req (writes chunks) st
    = Normal (map (fun _ => RStream) chunks, emit (map SWrite bufs) st).
Proof.
  induction chunks as [|c cs IH]; intros bufs st k Hb Hh Hs Hw.
  - apply Forall2_nil_inv_l in Hb as ->. cbn [writes map run]. by rewrite emit_nil.
  - apply Forall2_cons_inv_l in Hb as (b & bs & Hb & Hbs & ->).
    cbn [writes map run]. fold (writes cs). cbn [step].
    unfold call_write, res_write, write_commit.
    rewrite Hw, Hh. cbn [negb]. completion. rewrite Hs, Hb. cbn [snd fst].
    rewrite (IH bs _ k) by done. by rewrite emit_emit.
Qed.

(** The first [write] of a pending exchange commits the headers, then
    behaves as on the committed state. *)
Lemma first_write_commits (st st1 : Exchange) (ops : list Op) (c e : jsval) :
  header_sent (res st) = false → write_slot st = Proxy →
  writeHead X cfg req st = Normal st1 →
  header_sent (res st1) = true → write_slot st1 = Proxy →
  run X cfg req (OpWrite c e :: ops) st = run X cfg req (OpWrite c e :: ops) st1.
Proof.
  intros Hh Hw Hc Hh1 Hw1. cbn [run step].
  unfold call_write, res_write, write_commit.
  rewrite Hw, Hw1, Hh, Hh1, Hc. reflexivity.
Qed.

(** X9.  Chunks reach the selected target in the order they were written.
    On a pending exchange with the proxies in place, a run of [write]
    calls followed by [end] first fires the Decision Point, then makes
    one call per chunk, in order: on the original [write] and [end] with
    the very arguments given when no stream was created, on the stream
    with a Buffer of each chunk when one was (and [stream.end()] with no
    argument for a falsy last chunk). *)
Theorem chunks_reach_target_in_order
    (st : Exchange) (c : jsval * jsval) (cs : list (jsval * jsval)) (ce ee : jsval) :
  pending st = true → write_slot st = Proxy → end_slot st = Proxy →
  ∃ st1, writeHead X cfg req st = Normal st1
    ∧ (stream st1 = None →
       run X cfg req (writes (c :: cs) ++ [OpEnd ce ee]) st
       = Normal (map (fun _ => RTransport) (c :: cs) ++ [RTransport],
                 emit (map (fun c => TWrite c.1 c.2) (c :: cs) ++ [TEnd ce ee]) st1))
    ∧ (∀ bufs last,
         stream st1 ≠ None →
         Forall2 (fun c b => new_Buffer X c.1 c.2 = Normal b) (c :: cs) bufs →
         (if truthy ce
          then ∃ b, new_Buffer X ce ee = Normal b ∧ last = SEnd (Some b)
          else last = SEnd None) →
         run X cfg req (writes (c :: cs) ++ [OpEnd ce ee]) st
         = Normal (map (fun _ => RStream) (c :: cs) ++ [RStream],
                   emit (map SWrite bufs ++ [last]) st1)).
Proof.
  intros Hp Hw He. destruct (pending_inv st Hp) as (Hf & Hh & _ & Hs & l & Hl).
  eexists. split; [by apply writeHead_first|].
  set (st1 := commit_headers _).
  assert (Hh1 : header_sent (res st1) = true) by reflexivity.
  assert (Hw1 : write_slot st1 = Proxy).
  { subst st1. by destruct (decide_outcome X cfg req st). }
  assert (He1 : end_slot st1 = Proxy).
  { subst st1. by destruct (decide_outcome X cfg req st). }
  assert (Hrun : run X cfg req (writes (c :: cs) ++ [OpEnd ce ee]) st
                 = run X cfg req (writes (c :: cs) ++ [OpEnd ce ee]) st1).
  { cbn [writes map app]. apply first_write_commits; try done.
    by apply writeHead_first. }
  rewrite Hrun. split.
  - intros Hs1. rewrite run_app, run_writes_transport by done. completion.
    cbn [snd fst run step]. unfold call_end, res_end, end_commit. completion.
    cbn [end_slot emit res stream]. rewrite He1, Hh1. cbn [negb stream emit].
    rewrite Hs1. cbn [snd fst]. by rewrite emit_emit.
  - intros bufs last Hs1 Hb Hlast.
    destruct (stream st1) as [k|] eqn:Hk; [|done].
    rewrite run_app, (run_writes_stream _ bufs st1 k) by done. completion.
    cbn [snd fst run step]. unfold call_end, res_end, end_commit. completion.
    cbn [end_slot emit res stream]. rewrite He1, Hh1. cbn [negb stream emit].
    rewrite Hk. cbn [snd fst]. destruct (truthy ce).
    + destruct Hlast as (b & -> & ->). cbn [snd fst]. by rewrite emit_emit.
    + subst last. cbn [snd fst]. by rewrite emit_emit.
Qed.

End Flow.

(** ** What holds along every run *)

Section Runs.

Variable X : Collaborators.
Variable cfg : Config.
Variable req : Request.

Lemma commit_headers_committed (st : Exchange) :
  header_sent (res st) = true → commit_headers st = st.
Proof.
  destruct st as [[h s] f w e fl len ls str t]; cbn. by intros ->.
Qed.



(** After the decision an operation changes the trace and the slots of
    [write] and [end], nothing else. *)
Lemma step_settled (op : Op) (st st' : Exchange) (r : Ret) :
  wired st → fired st = true → step X cfg req op st = Normal (r, st') →
  res st' = res st ∧ fired st' = true ∧ stream st' = stream st
  ∧ listeners st' = listeners st ∧ flush_slot st' = flush_slot st
  ∧ est_length st' = est_length st.
Proof.
  intros Hw Hf. destruct (wired_fired st Hw Hf) as [Hh Hs].
  destruct op; cbn [step].
  - unfold call_write. destruct (write_slot st); [|completion; by intros [= _ <-]].
    unfold res_write, write_commit. rewrite Hh. cbn [negb]. completion.
    destruct (stream st) eqn:Hst.
    + destruct (new_Buffer X chunk encoding); [|done]. (intros [= _ <-]; cbn; by rewrite ?Hst).
    + (intros [= _ <-]; cbn; by rewrite ?Hst).
  - unfold call_end. destruct (end_slot st); [|completion; by intros [= _ <-]].
    unfold res_end, end_commit. rewrite Hh. cbn [negb]. completion.
    destruct (stream st) eqn:Hst.
    + destruct (truthy chunk).
      * destruct (new_Buffer X chunk encoding); [|done]. (intros [= _ <-]; cbn; by rewrite ?Hst).
      * (intros [= _ <-]; cbn; by rewrite ?Hst).
    + (intros [= _ <-]; cbn; by rewrite ?Hst).
  - completion. intros [= Hr].
    assert (st' = (res_on type listener st).2) as -> by by rewrite Hr.
    unfold res_on. destruct (stream st) eqn:Hst.
    + destruct Hs as [[l Hl] _]. rewrite Hl.
      by destruct (negb (String.eqb type "drain")).
    + destruct Hs as [Hl _]. by rewrite Hl.
  - completion. intros [= Hr].
    assert (st' = (call_flush st).2) as -> by by rewrite Hr.
    unfold call_flush. destruct (flush_slot st) eqn:Hfl; cbn; by rewrite ?Hfl.
  - by rewrite Hh.
  - rewrite writeHead_again by done. completion. intros [= _ <-].
    by rewrite commit_headers_committed.
  - completion. (intros [= _ <-]; cbn; by rewrite ?Hst).
Qed.

Lemma run_settled (ops : list Op) :
  ∀ (st st' : Exchange) (rets : list Ret),
    wired st → fired st = true → run X cfg req ops st = Normal (rets, st') →
    res st' = res st ∧ fired st' = true ∧ stream st' = stream st
    ∧ listeners st' = listeners st ∧ flush_slot st' = flush_slot st
    ∧ est_length st' = est_length st.
Proof.
  induction ops as [|op rest IH]; intros st st' rets Hw Hf; cbn [run]; completion.
  - by intros [= _ <-].
  - destruct (step X cfg req op st) as [[r st1]|e] eqn:Hs; [|done].
    cbn [snd]. destruct (run X cfg req rest st1) as [[rs st2]|e] eqn:Hr; [|done].
    cbn [snd]. intros [= _ <-].
    destruct (step_settled op st st1 r Hw Hf Hs) as (H1 & H2 & H3 & H4 & H5 & H6).
    destruct (IH st1 st2 rs) as (G1 & G2 & G3 & G4 & G5 & G6);
      [by eapply step_wired | done | done |].
    rewrite G1, G3, G4, G5, G6. done.
Qed.

(** X10.  The decision is final.  Once the Decision Point has fired on an
    exchange that started from the installed middleware, nothing the
    application does, and no close of the connection, changes the stream,
    the headers, [listeners], [flush] or the estimate: the listener never
    runs a second time. *)
Theorem decision_is_final
    (r : Response) (before after : list Op) (rets rets' : list Ret) (st st' : Exchange) :
  header_sent r = false →
  run X cfg req before (install r) = Normal (rets, st) →
  fired st = true →
  run X cfg req after st = Normal (rets', st') →
  fired st' = true ∧ stream st' = stream st ∧ res st' = res st
  ∧ listeners st' = listeners st ∧ flush_slot st' = flush_slot st
  ∧ est_length st' = est_length st.
Proof.
  intros Hr Hrun Hf Hrun'.
  assert (Hw : wired st) by (eapply run_wired; [by apply wired_install | exact Hrun]).
  destruct (run_settled after st st' rets' Hw Hf Hrun') as (H1 & H2 & H3 & H4 & H5 & H6).
  done.
Qed.


(** X12.  Nothing leaves before the decision.  In every state reached from
    the installed middleware on which the Decision Point has not fired,
    the headers are not committed, there is no stream, and the only calls
    made so far are subscriptions to events other than drain on the
    original [on]: no [write], no [end], no call on a stream. *)
Theorem nothing_leaves_before_decision
    (r : Response) (ops : list Op) (rets : list Ret) (st : Exchange) :
  header_sent r = false →
  run X cfg req ops (install r) = Normal (rets, st) →
  fired st = false →
  header_sent (res st) = false ∧ stream st = None
  ∧ forallb quiet_action (trace st) = true.
Proof.
  intros Hr Hrun Hf.
  assert (Hw : wired st) by (eapply run_wired; [by apply wired_install | exact Hrun]).
  destruct (wired_pending st Hw Hf) as (Hp & _ & Ht).
  destruct (pending_inv st Hp) as (_ & Hh & _ & Hs & _). done.
Qed.

(** X13.  [flush] reaches the stream, and only it.  In every state reached
    from the installed middleware, [res.flush()] returns [undefined]; it
    calls [stream.flush()] when a stream exists and does nothing at all
    when none does. *)
Theorem flush_reaches_the_stream_only
    (r : Response) (ops : list Op) (rets : list Ret) (st : Exchange) :
  header_sent r = false →
  run X cfg req ops (install r) = Normal (rets, st) →
  call_flush st
  = (RUndef, match stream st with Some _ => emit [SFlush] st | None => st end).
Proof.
  intros Hr Hrun.
  assert (Hw : wired st) by (eapply run_wired; [by apply wired_install | exact Hrun]).
  unfold call_flush. destruct (fired st) eqn:Hf.
  - destruct (wired_fired st Hw Hf) as [_ Hs].
    destruct (stream st); by destruct Hs as [_ ->].
  - destruct (wired_pending st Hw Hf) as (Hp & -> & _).
    destruct (pending_inv st Hp) as (_ & _ & _ & -> & _). done.
Qed.

End Runs.

(** ** Worked exchanges for the properties above *)

Lemma compression_iff_every_rule_passes_witness :
  ∃ st', writeHead Reference.node default_config get_gzip (install html) = Normal st'
    ∧ (stream st' ≠ None
       ↔ eligible Reference.node default_config get_gzip (install html) = true
         ∧ below_threshold Reference.node default_config (install html) = false)
    ∧ (stream st' ≠ None →
       stream st' = Some (codec_of (negotiate Reference.node get_gzip))
       ∧ getHeader (res st') "Content-Encoding" = negotiate Reference.node get_gzip
       ∧ getHeader (res st') "Content-Length" = VUndef)
    ∧ (stream st' = None →
       getHeader (res st') "Content-Encoding"
       = getHeader (res (install html)) "Content-Encoding"
       ∧ getHeader (res st') "Content-Length"
         = getHeader (res (install html)) "Content-Length").
Proof.
  apply (compression_iff_every_rule_passes Reference.node default_config get_gzip
           (install html)). reflexivity.
Defined.

Lemma decision_leaves_other_headers_witness :
  ∃ st', writeHead Reference.node default_config get_gzip (install html) = Normal st'
    ∧ getHeader (res st') "Content-Type" = getHeader (res (install html)) "Content-Type".
Proof.
  apply (decision_leaves_other_headers Reference.node default_config get_gzip
           (install html) "Content-Type"); [reflexivity | done | done | done].
Defined.

Lemma declared_encoding_is_kept_witness :
  ∃ st', writeHead Reference.node default_config get_gzip (install html_encoded_br)
         = Normal st'
    ∧ stream st' = None
    ∧ flush_slot st' = flush_slot (install html_encoded_br)
    ∧ getHeader (res st') "Content-Encoding"
      = getHeader (res (install html_encoded_br)) "Content-Encoding"
    ∧ getHeader (res st') "Content-Length"
      = getHeader (res (install html_encoded_br)) "Content-Length".
Proof.
  apply (declared_encoding_is_kept Reference.node default_config get_gzip
           (install html_encoded_br)); reflexivity.
Defined.

Lemma head_request_is_not_compressed_witness :
  ∃ st', writeHead Reference.node default_config head_gzip (install html) = Normal st'
    ∧ stream st' = None
    ∧ flush_slot st' = flush_slot (install html)
    ∧ getHeader (res st') "Content-Encoding"
      = getHeader (res (install html)) "Content-Encoding"
    ∧ getHeader (res st') "Content-Length"
      = getHeader (res (install html)) "Content-Length".
Proof.
  apply (head_request_is_not_compressed Reference.node default_config head_gzip
           (install html)); reflexivity.
Defined.

Lemma codec_matches_content_encoding_witness :
  ∃ st', writeHead Reference.node default_config get_deflate_gzip (install html)
         = Normal st'
    ∧ (stream st' = None
       ∨ (stream st' = Some Gzip
          ∧ getHeader (res st') "Content-Encoding" = VStr "gzip")
       ∨ (stream st' = Some Deflate
          ∧ getHeader (res st') "Content-Encoding" = VStr "deflate"
          ∧ truthy (accepts_encoding Reference.node get_deflate_gzip ["gzip"]) = false)).
Proof.
  apply (codec_matches_content_encoding Reference.node default_config get_deflate_gzip
           (install html)).
  - apply accepts_encoding_candidate.
  - reflexivity.
Defined.

Lemma known_length_decides_witness :
  ∃ st',
    end_commit Reference.node default_config get_gzip VUndef VUndef
      (install (html_with_length (VStr "2048"))) = Normal st'
    ∧ (stream st' = None ↔ 2048 < 1024)
    ∧ (stream st' = Some (codec_of (negotiate Reference.node get_gzip)) ↔ 1024 ≤ 2048).
Proof.
  apply (known_length_decides Reference.node default_config get_gzip
           (install (html_with_length (VStr "2048"))) VUndef VUndef 1024 2048);
    vm_compute; reflexivity.
Defined.

Lemma falsy_end_chunk_escapes_threshold_witness :
  ∃ st',
    end_commit Reference.node default_config get_gzip (VStr "") VUndef (install html)
    = Normal st'
    ∧ est_length st' = VUndef
    ∧ stream st' = Some (codec_of (negotiate Reference.node get_gzip)).
Proof.
  apply (falsy_end_chunk_escapes_threshold Reference.node default_config get_gzip
           (install html) (VStr "") VUndef); reflexivity.
Defined.

Lemma unreadable_threshold_never_applies_witness :
  ∃ st',
    end_commit Reference.node nan_config get_gzip (VStr "a") VUndef
      (install (html_with_length (VStr "1"))) = Normal st'
    ∧ stream st' = Some (codec_of (negotiate Reference.node get_gzip)).
Proof.
  apply (unreadable_threshold_never_applies Reference.node nan_config get_gzip
           (install (html_with_length (VStr "1"))) (VStr "a") VUndef); reflexivity.
Defined.

Lemma chunks_reach_target_in_order_witness :
  ∃ st1, writeHead Reference.node default_config get_gzip (install bare) = Normal st1
    ∧ (stream st1 = None →
       run Reference.node default_config get_gzip
         (writes [(VStr "a", VUndef); (VStr "b", VUndef); (VStr "c", VUndef)]
          ++ [OpEnd VUndef VUndef]) (install bare)
       = Normal (map (fun _ => RTransport)
                   [(VStr "a", VUndef); (VStr "b", VUndef); (VStr "c", VUndef)]
                 ++ [RTransport],
                 emit (map (fun c => TWrite c.1 c.2)
                         [(VStr "a", VUndef); (VStr "b", VUndef); (VStr "c", VUndef)]
                       ++ [TEnd VUndef VUndef]) st1))
    ∧ (∀ bufs last,
         stream st1 ≠ None →
         Forall2 (fun c b => new_Buffer Reference.node c.1 c.2 = Normal b)
           [(VStr "a", VUndef); (VStr "b", VUndef); (VStr "c", VUndef)] bufs →
         (if truthy VUndef
          then ∃ b, new_Buffer Reference.node VUndef VUndef = Normal b
                    ∧ last = SEnd (Some b)
          else last = SEnd None) →
         run Reference.node default_config get_gzip
           (writes [(VStr "a", VUndef); (VStr "b", VUndef); (VStr "c", VUndef)]
            ++ [OpEnd VUndef VUndef]) (install bare)
         = Normal (map (fun _ => RStream)
                     [(VStr "a", VUndef); (VStr "b", VUndef); (VStr "c", VUndef)]
                   ++ [RStream],
                   emit (map SWrite bufs ++ [last]) st1)).
Proof.
  apply (chunks_reach_target_in_order Reference.node default_config get_gzip
           (install bare) (VStr "a", VUndef) [(VStr "b", VUndef); (VStr "c", VUndef)]
           VUndef VUndef); reflexivity.
Defined.

(** The three writes and the [end], run: on a response the filter rejects
    they reach the transport as given; on an HTML response they reach the
    gzip stream as Buffers. *)
Example ex_chunks_to_transport :
  (p ← run Reference.node default_config get_gzip
         (writes [(VStr "a", VUndef); (VStr "b", VUndef); (VStr "c", VUndef)]
          ++ [OpEnd VUndef VUndef]) (install bare);
   mret (p.1, trace p.2))
  = Normal ([RTransport; RTransport; RTransport; RTransport],
            [TWrite (VStr "a") VUndef; TWrite (VStr "b") VUndef;
             TWrite (VStr "c") VUndef; TEnd VUndef VUndef]).
Proof. vm_compute. reflexivity. Qed.

Example ex_chunks_to_stream :
  (p ← run Reference.node default_config get_gzip
         (writes [(VStr "a", VUndef); (VStr "b", VUndef); (VStr "c", VUndef)]
          ++ [OpEnd VUndef VUndef]) (install html);
   mret (p.1, trace p.2))
  = Normal ([RStream; RStream; RStream; RStream],
            [SOn "data" RelayData; SOn "end" RelayEnd; TOn "drain" RelayResume;
             SWrite [Byte.x61]; SWrite [Byte.x62]; SWrite [Byte.x63]; SEnd None]).
Proof. vm_compute. reflexivity. Qed.

Lemma decision_is_final_witness :
  ∃ rets st rets' st',
    run Reference.node default_config get_gzip
      [OpOn "drain" (AppListener 1); OpWrite (VStr "a") VUndef] (install html)
    = Normal (rets, st)
    ∧ run Reference.node default_config get_gzip
        [OpOn "drain" (AppListener 2); OpWriteHead; OpClose; OpEnd (VStr "b") VUndef; OpFlush]
        st
      = Normal (rets', st')
    ∧ fired st' = true ∧ stream st' = stream st ∧ res st' = res st
    ∧ listeners st' = listeners st ∧ flush_slot st' = flush_slot st
    ∧ est_length st' = est_length st.
Proof.
  do 4 eexists.
  split; [vm_compute; reflexivity|]. split; [vm_compute; reflexivity|].
  eapply (decision_is_final Reference.node default_config get_gzip html
           [OpOn "drain" (AppListener 1); OpWrite (VStr "a") VUndef]
           [OpOn "drain" (AppListener 2); OpWriteHead; OpClose; OpEnd (VStr "b") VUndef;
            OpFlush] _ _ _ _); vm_compute; reflexivity.
Defined.


(** On that state a [write] with no chunk does throw, as [new Buffer]
    does, and so does a late [setHeader]. *)
Example ex_throws :
  (p ← run Reference.node default_config get_gzip [OpWrite (VStr "a") VUndef] (install html);
   step Reference.node default_config get_gzip (OpWrite VUndef VUndef) p.2)
  = Throw TypeError
  ∧ (p ← run Reference.node default_config get_gzip [OpWrite (VStr "a") VUndef] (install html);
     step Reference.node default_config get_gzip (OpSetHeader "X-Late" (VStr "1")) p.2)
    = Throw Error.
Proof. split; vm_compute; reflexivity. Qed.

Lemma nothing_leaves_before_decision_witness :
  ∃ rets st,
    run Reference.node default_config get_gzip
      [OpOn "drain" (AppListener 1); OpOn "finish" (AppListener 2); OpFlush;
       OpSetHeader "Content-Length" (VStr "5"); OpClose; OpWrite (VStr "a") VUndef]
      (install html)
    = Normal (rets, st)
    ∧ header_sent (res st) = false ∧ stream st = None
    ∧ forallb quiet_action (trace st) = true.
Proof.
  do 2 eexists. split; [vm_compute; reflexivity|].
  eapply (nothing_leaves_before_decision Reference.node default_config get_gzip html
           [OpOn "drain" (AppListener 1); OpOn "finish" (AppListener 2); OpFlush;
            OpSetHeader "Content-Length" (VStr "5"); OpClose; OpWrite (VStr "a") VUndef]
           _ _); vm_compute; reflexivity.
Defined.

Lemma flush_reaches_the_stream_only_witness :
  ∃ rets st,
    run Reference.node default_config get_gzip [OpWrite (VStr "a") VUndef] (install html)
    = Normal (rets, st)
    ∧ call_flush st
      = (RUndef, match stream st with Some _ => emit [SFlush] st | None => st end).
Proof.
  do 2 eexists. split; [vm_compute; reflexivity|].
  eapply (flush_reaches_the_stream_only Reference.node default_config get_gzip html
           [OpWrite (VStr "a") VUndef] _ _); vm_compute; reflexivity.
Defined.
